(** * Chart editor and viewer: drag/resize geometry, dialogs, activation

    A shallow embedding of the chart components:
    - [Chart]        the interfaces of src/components/Chart.tsx;
    - [ChartEditor]  the editor component (hit zones, drag and resize moves,
                     the add / confirm / cancel handlers of the button dialog);
    - [ChartViewer]  the viewer component (button activation).

    JavaScript numbers are modelled as [Z]: every quantity the handlers
    compute is built from pointer and layout coordinates with [+], [-],
    [Math.max], [Math.min] and comparisons, which are exact on integers.
    React state is modelled by explicit state passing: a handler takes the
    state of the render it closes over and returns the next state; each
    handler runs on the state left by the previous event. *)

From Stdlib Require Import ZArith List String Ascii Bool Lia DecimalString.
From Stdlib Require Import Decimal DecimalPos DecimalN QArith Qround.
Import ListNotations.

Local Open Scope string_scope.
Local Open Scope Z_scope.

(** ** DOM values the handlers read *)

Module Dom.

(** The part of a [DOMRect] returned by [getBoundingClientRect] that the
    handlers use. *)
Record Rect := mkRect {
  left : Z;
  top : Z;
  width : Z;
  height : Z
}.

(** [clientX] / [clientY] of a mouse event or of one touch point. *)
Record Pointer := mkPointer {
  clientX : Z;
  clientY : Z
}.

(** A React pointer event as [getResizeDirection] receives it: a mouse
    event, or a touch event with its list of touches. *)
Inductive Event :=
| MouseEv (p : Pointer)
| TouchEv (touches : list Pointer).

End Dom.

(** ** src/components/Chart.tsx and the range registry *)

Module Chart.

(** The values the optional [type] field takes in the components: the
    interface lists ['normal' | 'exit'], the editor also stores ['label']. *)
Inductive ButtonType := normal | label | exit.

Record ChartButton := mkButton {
  id : string;
  name : string;
  color : string;
  linkedItem : string;
  x : Z;
  y : Z;
  width : Z;
  height : Z;
  type : option ButtonType
}.

(** Modelled from the spec: the [Range] interface of RangeContext is not
    part of the sources; the spec describes a linkable range entity by its
    id and display name, the only fields the handlers below read. *)
Record Range := mkRange {
  range_id : string;
  range_name : string
}.

(** [{ ...btn, x: newX, y: newY }] *)
Definition withXY (btn : ChartButton) (newX newY : Z) : ChartButton :=
  mkButton (id btn) (name btn) (color btn) (linkedItem btn)
           newX newY (width btn) (height btn) (type btn).

(** [{ ...btn, x: newX, y: newY, width: newWidth, height: newHeight }] *)
Definition withGeometry (btn : ChartButton) (newX newY newWidth newHeight : Z)
  : ChartButton :=
  mkButton (id btn) (name btn) (color btn) (linkedItem btn)
           newX newY newWidth newHeight (type btn).

(** [{ ...prev, width: v }] and [{ ...prev, height: v }] *)
Definition withWidth (btn : ChartButton) (v : Z) : ChartButton :=
  mkButton (id btn) (name btn) (color btn) (linkedItem btn)
           (x btn) (y btn) v (height btn) (type btn).

Definition withHeight (btn : ChartButton) (v : Z) : ChartButton :=
  mkButton (id btn) (name btn) (color btn) (linkedItem btn)
           (x btn) (y btn) (width btn) v (type btn).

(** [{ ...prev, linkedItem: l, type: t }] *)
Definition withLink (btn : ChartButton) (l : string) (t : ButtonType)
  : ChartButton :=
  mkButton (id btn) (name btn) (color btn) l
           (x btn) (y btn) (width btn) (height btn) (Some t).

End Chart.

(** ** The editor component *)

Module ChartEditor.

Import Chart.

(** The eight tokens [getResizeDirection] returns. *)
Inductive Direction :=
| DirN | DirS | DirE | DirW | DirNE | DirNW | DirSE | DirSW.

(** The [useState] cells of the component that the handlers read or
    write. *)
Record State := mkState {
  buttons : list ChartButton;
  isButtonModalOpen : bool;
  editingButton : option ChartButton;
  activeButtonId : option string;
  isDragging : bool;
  isResizing : bool;
  dragOffset : Z * Z;
  resizeDirection : option Direction
}.

Definition setButtons (f : list ChartButton -> list ChartButton) (st : State)
  : State :=
  mkState (f (buttons st)) (isButtonModalOpen st) (editingButton st)
          (activeButtonId st) (isDragging st) (isResizing st)
          (dragOffset st) (resizeDirection st).

(** *** Hit zones *)

Definition tolerance : Z := 8.

(** The classification on the local position [(x, y)] in a box of the
    given width and height: the [if / else if] chain of
    [getResizeDirection]. *)
Definition classify (x y rectWidth rectHeight : Z) : option Direction :=
  if (x <? tolerance) && (y <? tolerance) then Some DirNW
  else if (x >? rectWidth - tolerance) && (y <? tolerance) then Some DirNE
  else if (x <? tolerance) && (y >? rectHeight - tolerance) then Some DirSW
  else if (x >? rectWidth - tolerance) && (y >? rectHeight - tolerance)
    then Some DirSE
  else if x <? tolerance then Some DirW
  else if x >? rectWidth - tolerance then Some DirE
  else if y <? tolerance then Some DirN
  else if y >? rectHeight - tolerance then Some DirS
  else None.

(** [getResizeDirection(e, button)]: [rect] is the bounding box of the
    event target; [coords] is the first touch when there is one, else the
    event itself.  A touch event without touches has no [clientX], the
    local position is [NaN], every comparison is false and the result is
    [null].  The [button] argument is not used by the source. *)
Definition getResizeDirection (e : Dom.Event) (rect : Dom.Rect)
  : option Direction :=
  let coords :=
    match e with
    | Dom.MouseEv p => Some p
    | Dom.TouchEv (t :: _) => Some t
    | Dom.TouchEv [] => None
    end in
  match coords with
  | Some c =>
      let x := Dom.clientX c - Dom.left rect in
      let y := Dom.clientY c - Dom.top rect in
      classify x y (Dom.width rect) (Dom.height rect)
  | None => None
  end.

(** *** Drag and resize moves *)

Definition minSize : Z := 50.

(** The drag branch: the clamped top-left corner. *)
Definition dragPosition (canvasRect : Dom.Rect) (offset : Z * Z)
           (p : Dom.Pointer) (currentButton : ChartButton) : Z * Z :=
  let newX := Dom.clientX p - fst offset - Dom.left canvasRect in
  let newY := Dom.clientY p - snd offset - Dom.top canvasRect in
  let newX := Z.max 0 (Z.min newX (Dom.width canvasRect - width currentButton)) in
  let newY := Z.max 0 (Z.min newY (Dom.height canvasRect - height currentButton)) in
  (newX, newY).

(** A rectangle [(x, y, width, height)] under computation. *)
Record Geometry := mkGeometry {
  gx : Z;
  gy : Z;
  gwidth : Z;
  gheight : Z
}.

(** The [switch (resizeDirection)] of the resize branch: the candidate
    rectangle, with the minimum-size floor applied, before the
    containment clamp. *)
Definition resizeCandidate (dir : Direction) (canvasRect : Dom.Rect)
           (p : Dom.Pointer) (currentButton : ChartButton) : Geometry :=
  let newWidth := width currentButton in
  let newHeight := height currentButton in
  let newX := x currentButton in
  let newY := y currentButton in
  let fromLeft := Dom.clientX p - (x currentButton + Dom.left canvasRect) in
  let fromTop := Dom.clientY p - (y currentButton + Dom.top canvasRect) in
  match dir with
  | DirE =>
      mkGeometry newX newY (Z.max minSize fromLeft) newHeight
  | DirS =>
      mkGeometry newX newY newWidth (Z.max minSize fromTop)
  | DirW =>
      let diffX := fromLeft in
      mkGeometry (x currentButton + diffX) newY
                 (Z.max minSize (width currentButton - diffX)) newHeight
  | DirN =>
      let diffY := fromTop in
      mkGeometry newX (y currentButton + diffY)
                 newWidth (Z.max minSize (height currentButton - diffY))
  | DirSE =>
      mkGeometry newX newY (Z.max minSize fromLeft) (Z.max minSize fromTop)
  | DirSW =>
      let diffX_sw := fromLeft in
      mkGeometry (x currentButton + diffX_sw) newY
                 (Z.max minSize (width currentButton - diffX_sw))
                 (Z.max minSize fromTop)
  | DirNE =>
      let diffY_ne := fromTop in
      mkGeometry newX (y currentButton + diffY_ne)
                 (Z.max minSize fromLeft)
                 (Z.max minSize (height currentButton - diffY_ne))
  | DirNW =>
      let diffX_nw := fromLeft in
      let diffY_nw := fromTop in
      mkGeometry (x currentButton + diffX_nw) (y currentButton + diffY_nw)
                 (Z.max minSize (width currentButton - diffX_nw))
                 (Z.max minSize (height currentButton - diffY_nw))
  end.

(** The four assignments after the switch: clamp the position, then
    reclamp the size against the clamped position. *)
Definition clampToCanvas (canvasRect : Dom.Rect) (g : Geometry) : Geometry :=
  let newX := Z.max 0 (Z.min (gx g) (Dom.width canvasRect - gwidth g)) in
  let newY := Z.max 0 (Z.min (gy g) (Dom.height canvasRect - gheight g)) in
  let newWidth := Z.min (gwidth g) (Dom.width canvasRect - newX) in
  let newHeight := Z.min (gheight g) (Dom.height canvasRect - newY) in
  mkGeometry newX newY newWidth newHeight.

Definition resizeGeometry (dir : Direction) (canvasRect : Dom.Rect)
           (p : Dom.Pointer) (currentButton : ChartButton) : Geometry :=
  clampToCanvas canvasRect (resizeCandidate dir canvasRect p currentButton).

(** [!activeButtonId] is true for [null] and for the empty string. *)
Definition activeTarget (st : State) : option string :=
  match activeButtonId st with
  | Some "" => None
  | other => other
  end.

(** The body shared, word for word, by [handleMouseMove] and
    [handleTouchMove] once the pointer coordinates are known.
    [canvasRef] is [None] when [canvasRef.current] is null. *)
Definition moveWith (canvasRef : option Dom.Rect) (p : Dom.Pointer)
           (st : State) : State :=
  match activeTarget st, canvasRef with
  | Some activeId, Some canvasRect =>
      match find (fun b => String.eqb (id b) activeId) (buttons st) with
      | None => st
      | Some currentButton =>
          if isDragging st then
            let '(newX, newY) :=
              dragPosition canvasRect (dragOffset st) p currentButton in
            setButtons
              (map (fun btn =>
                      if String.eqb (id btn) activeId then withXY btn newX newY
                      else btn)) st
          else if isResizing st then
            match resizeDirection st with
            | Some dir =>
                let g := resizeGeometry dir canvasRect p currentButton in
                setButtons
                  (map (fun btn =>
                          if String.eqb (id btn) activeId
                          then withGeometry btn (gx g) (gy g)
                                            (gwidth g) (gheight g)
                          else btn)) st
            | None => st
            end
          else st
      end
  | _, _ => st
  end.

Definition handleMouseMove (canvasRef : option Dom.Rect) (e : Dom.Pointer)
           (st : State) : State :=
  moveWith canvasRef e st.

(** [handleTouchMove] tracks [e.touches[0]] and returns when there is
    none. *)
Definition handleTouchMove (canvasRef : option Dom.Rect)
           (touches : list Dom.Pointer) (st : State) : State :=
  match activeTarget st, canvasRef with
  | Some _, Some _ =>
      match touches with
      | touch :: _ => moveWith canvasRef touch st
      | [] => st
      end
  | _, _ => st
  end.

(** [handleMouseDown(e, button)].  [onSettingsIcon] is the outcome of
    [e.target.closest('.settings-icon')]; [targetRect] and
    [currentTargetRect] are the bounding boxes of [e.target] and of
    [e.currentTarget]. *)
Definition handleMouseDown (onSettingsIcon : bool) (e : Dom.Pointer)
           (targetRect currentTargetRect : Dom.Rect) (button : ChartButton)
           (st : State) : State :=
  if onSettingsIcon then st
  else
    let direction := getResizeDirection (Dom.MouseEv e) targetRect in
    let offset := (Dom.clientX e - Dom.left currentTargetRect,
                   Dom.clientY e - Dom.top currentTargetRect) in
    match direction with
    | Some d =>
        mkState (buttons st) (isButtonModalOpen st) (editingButton st)
                (Some (id button)) (isDragging st) true offset (Some d)
    | None =>
        mkState (buttons st) (isButtonModalOpen st) (editingButton st)
                (Some (id button)) true (isResizing st) offset
                (resizeDirection st)
    end.

(** [handleTouchStart(e, button)]; [touch] is [e.touches[0]], which a
    touchstart event always carries, [others] the remaining touches. *)
Definition handleTouchStart (onSettingsIcon : bool) (touch : Dom.Pointer)
           (others : list Dom.Pointer)
           (targetRect currentTargetRect : Dom.Rect) (button : ChartButton)
           (st : State) : State :=
  if onSettingsIcon then st
  else
    let direction :=
      getResizeDirection (Dom.TouchEv (touch :: others)) targetRect in
    let offset := (Dom.clientX touch - Dom.left currentTargetRect,
                   Dom.clientY touch - Dom.top currentTargetRect) in
    match direction with
    | Some d =>
        mkState (buttons st) (isButtonModalOpen st) (editingButton st)
                (Some (id button)) (isDragging st) true offset (Some d)
    | None =>
        mkState (buttons st) (isButtonModalOpen st) (editingButton st)
                (Some (id button)) true (isResizing st) offset
                (resizeDirection st)
    end.

Definition handleMouseUp (st : State) : State :=
  mkState (buttons st) (isButtonModalOpen st) (editingButton st)
          None false false (dragOffset st) None.

(** *** The button dialog *)

(** [String(Date.now())]: the decimal digits of the clock value. *)
Definition dateNowString (now : N) : string :=
  NilEmpty.string_of_uint (N.to_uint now).

(** [handleAddButton]; [now] is the value of [Date.now()]. *)
Definition handleAddButton (now : N) (allRanges : list Range) (st : State)
  : State :=
  let newButton :=
    mkButton (dateNowString now)
             "Новая кнопка"
             "#60A5FA"
             (match allRanges with
              | r :: _ => range_id r
              | [] => "label-only"
              end)
             50 50 120 40
             (match allRanges with
              | _ :: _ => Some normal
              | [] => Some label
              end) in
  mkState (buttons st ++ [newButton]) true (Some newButton)
          (activeButtonId st) (isDragging st) (isResizing st)
          (dragOffset st) (resizeDirection st).

Definition handleSettingsClick (button : ChartButton) (st : State) : State :=
  mkState (buttons st) true (Some button)
          (activeButtonId st) (isDragging st) (isResizing st)
          (dragOffset st) (resizeDirection st).

Definition handleSaveButtonProperties (st : State) : State :=
  match editingButton st with
  | Some editing =>
      mkState
        (map (fun btn => if String.eqb (id btn) (id editing)
                         then editing else btn) (buttons st))
        false None
        (activeButtonId st) (isDragging st) (isResizing st)
        (dragOffset st) (resizeDirection st)
  | None => st
  end.

Definition handleCancelButtonProperties (st : State) : State :=
  let kept :=
    match editingButton st with
    | Some editing =>
        if negb (existsb (fun b => String.eqb (id b) (id editing))
                         (buttons st))
        then filter (fun b => negb (String.eqb (id b) (id editing)))
                    (buttons st)
        else buttons st
    | None => buttons st
    end in
  mkState kept false None
          (activeButtonId st) (isDragging st) (isResizing st)
          (dragOffset st) (resizeDirection st).

Definition setEditingButton
           (f : option ChartButton -> option ChartButton) (st : State)
  : State :=
  mkState (buttons st) (isButtonModalOpen st) (f (editingButton st))
          (activeButtonId st) (isDragging st) (isResizing st)
          (dragOffset st) (resizeDirection st).

Definition handleLinkedItemChange (value : string) (st : State) : State :=
  setEditingButton
    (fun prev =>
       match prev with
       | None => None
       | Some prev =>
           if String.eqb value "label-only"
           then Some (withLink prev "label-only" label)
           else Some (withLink prev value normal)
       end) st.

(** **** The numeric fields of the dialog *)

(** White space that [parseInt] skips, among the one-byte characters. *)
Definition isWhiteSpace (c : ascii) : bool :=
  match nat_of_ascii c with
  | 9%nat | 10%nat | 11%nat | 12%nat | 13%nat | 32%nat => true
  | _ => false
  end.

Fixpoint trimStart (s : string) : string :=
  match s with
  | String c rest => if isWhiteSpace c then trimStart rest else s
  | EmptyString => s
  end.

(** The value of a character as a digit in the given radix (10 or 16). *)
Definition digitValue (radix : Z) (c : ascii) : option Z :=
  let k := Z.of_nat (nat_of_ascii c) in
  let v :=
    if (48 <=? k) && (k <=? 57) then Some (k - 48)
    else if (97 <=? k) && (k <=? 102) then Some (k - 87)
    else if (65 <=? k) && (k <=? 70) then Some (k - 55)
    else None in
  match v with
  | Some d => if d <? radix then Some d else None
  | None => None
  end.

(** The longest prefix of digits, read in the radix; [acc] is [None]
    until a digit has been seen. *)
Fixpoint parseDigits (radix : Z) (s : string) (acc : option Z) : option Z :=
  match s with
  | String c rest =>
      match digitValue radix c with
      | Some d =>
          parseDigits radix rest
            (Some (radix * match acc with Some a => a | None => 0 end + d))
      | None => acc
      end
  | EmptyString => acc
  end.

(** [parseInt(value)] with no radix argument; [None] is [NaN]. *)
Definition parseInt (value : string) : option Z :=
  let s := trimStart value in
  let '(sign, s) :=
    match s with
    | String "-" rest => (-1, rest)
    | String "+" rest => (1, rest)
    | _ => (1, s)
    end in
  let '(radix, s) :=
    match s with
    | String "0" (String "x" rest) => (16, rest)
    | String "0" (String "X" rest) => (16, rest)
    | _ => (10, s)
    end in
  option_map (Z.mul sign) (parseDigits radix s None).

(** [parseInt(e.target.value) || 0]: [NaN] and [0] are falsy. *)
Definition parseIntOrZero (value : string) : Z :=
  match parseInt value with
  | Some v => v
  | None => 0
  end.

(** The [onChange] handlers of the width and height inputs. *)
Definition handleWidthChange (value : string) (st : State) : State :=
  setEditingButton
    (fun prev =>
       match prev with
       | Some prev => Some (withWidth prev (parseIntOrZero value))
       | None => None
       end) st.

Definition handleHeightChange (value : string) (st : State) : State :=
  setEditingButton
    (fun prev =>
       match prev with
       | Some prev => Some (withHeight prev (parseIntOrZero value))
       | None => None
       end) st.

End ChartEditor.

(** ** The viewer component *)

Module ChartViewer.

Import Chart.

Record State := mkState {
  displayedRange : option Range;
  showMatrixView : bool
}.

(** What a handler does besides updating the state: the call of the
    [onBackToCharts] prop and the [alert] shown to the user. *)
Inductive Effect :=
| OnBackToCharts
| Alert (message : string).

Definition rangeNotFound : string := "Привязанный диапазон не найден.".

Definition handleButtonClick (allRanges : list Range) (button : ChartButton)
           (st : State) : State * list Effect :=
  match type button with
  | Some exit => (st, [OnBackToCharts])
  | Some label => (st, [])
  | _ =>
      match find (fun range => String.eqb (range_id range) (linkedItem button))
                 allRanges with
      | Some linkedRange => (mkState (Some linkedRange) true, [])
      | None => (mkState None (showMatrixView st), [Alert rangeNotFound])
      end
  end.

Definition handleBackToButtons (st : State) : State :=
  mkState None false.

End ChartViewer.

(** ** Gestures and the properties stated about them *)

Module Gesture.

Import Chart ChartEditor.

(** A move event as the window listeners deliver it, together with what
    [canvasRef.current.getBoundingClientRect()] returns at that instant
    ([None] when the ref is not attached). *)
Inductive MoveEvent :=
| MouseMove (canvasRef : option Dom.Rect) (e : Dom.Pointer)
| TouchMove (canvasRef : option Dom.Rect) (touches : list Dom.Pointer).

Definition applyMove (ev : MoveEvent) (st : State) : State :=
  match ev with
  | MouseMove canvasRef e => handleMouseMove canvasRef e st
  | TouchMove canvasRef touches => handleTouchMove canvasRef touches st
  end.

(** The moves of one gesture, handled in arrival order. *)
Definition runMoves (evs : list MoveEvent) (st : State) : State :=
  fold_left (fun acc ev => applyMove ev acc) evs st.

Definition canvasOf (ev : MoveEvent) : option Dom.Rect :=
  match ev with
  | MouseMove canvasRef _ => canvasRef
  | TouchMove canvasRef _ => canvasRef
  end.

(** The event sees a canvas of the given dimensions. *)
Definition onCanvas (canvasWidth canvasHeight : Z) (ev : MoveEvent) : Prop :=
  match canvasOf ev with
  | Some r => Dom.width r = canvasWidth /\ Dom.height r = canvasHeight
  | None => True
  end.

(** The button the session acts on: [buttons.find(b => b.id ===
    activeButtonId)]. *)
Definition target (st : State) : option ChartButton :=
  match activeTarget st with
  | Some activeId => find (fun b => String.eqb (id b) activeId) (buttons st)
  | None => None
  end.

(** The containment invariant of the data model. *)
Definition Contained (canvasWidth canvasHeight : Z) (b : ChartButton) : Prop :=
  0 <= x b /\ 0 <= y b /\
  x b + width b <= canvasWidth /\ y b + height b <= canvasHeight.

(** The minimum-size invariant of the data model. *)
Definition AtLeastMinSize (b : ChartButton) : Prop :=
  minSize <= width b /\ minSize <= height b.

(** A candidate rectangle that the containment clamp leaves alone. *)
Definition Fits (canvasRect : Dom.Rect) (g : Geometry) : Prop :=
  0 <= gx g /\ 0 <= gy g /\
  gx g + gwidth g <= Dom.width canvasRect /\
  gy g + gheight g <= Dom.height canvasRect.

Definition Sound (canvasWidth canvasHeight : Z) (b : ChartButton) : Prop :=
  Contained canvasWidth canvasHeight b /\ AtLeastMinSize b.

(** The pointer a move event tracks: the mouse position, or the first
    touch. *)
Definition pointerOf (ev : MoveEvent) : option Dom.Pointer :=
  match ev with
  | MouseMove _ e => Some e
  | TouchMove _ (touch :: _) => Some touch
  | TouchMove _ [] => None
  end.

(** [prev.map(btn => btn.id === activeButtonId ? upd(btn) : btn)] *)
Definition updateById (activeId : string) (upd : ChartButton -> ChartButton)
           (bs : list ChartButton) : list ChartButton :=
  map (fun btn => if String.eqb (id btn) activeId then upd btn else btn) bs.

(** *** The hit zones as the specification words them

    The tolerance band of each side of a box of the given width and
    height; the bands are open: a position at distance exactly 8 from a
    side is outside its band. *)
Definition nearLeft (px : Z) : Prop := px < tolerance.
Definition nearRight (px boxWidth : Z) : Prop := boxWidth - tolerance < px.
Definition nearTop (py : Z) : Prop := py < tolerance.
Definition nearBottom (py boxHeight : Z) : Prop := boxHeight - tolerance < py.

(** Corners are the positions in the bands of two adjacent sides; an edge
    is a position in one band that is in no corner; [None] is a position
    outside all four bands. *)
Definition Zone (px py boxWidth boxHeight : Z) (d : option Direction) : Prop :=
  match d with
  | Some DirNW => nearLeft px /\ nearTop py
  | Some DirNE => nearRight px boxWidth /\ nearTop py
  | Some DirSW => nearLeft px /\ nearBottom py boxHeight
  | Some DirSE => nearRight px boxWidth /\ nearBottom py boxHeight
  | Some DirW => nearLeft px /\ ~ nearTop py /\ ~ nearBottom py boxHeight
  | Some DirE =>
      nearRight px boxWidth /\ ~ nearTop py /\ ~ nearBottom py boxHeight
  | Some DirN => nearTop py /\ ~ nearLeft px /\ ~ nearRight px boxWidth
  | Some DirS =>
      nearBottom py boxHeight /\ ~ nearLeft px /\ ~ nearRight px boxWidth
  | None =>
      ~ nearLeft px /\ ~ nearRight px boxWidth /\
      ~ nearTop py /\ ~ nearBottom py boxHeight
  end.

(** *** Concrete sessions used as examples *)

Definition canvas800x500 : Dom.Rect := Dom.mkRect 0 0 800 500.

Definition idle (bs : list ChartButton) : State :=
  mkState bs false None None false false (0, 0) None.

Definition sampleButton (bx by_ bw bh : Z) : ChartButton :=
  mkButton "b1" "A" "#60A5FA" "R1" bx by_ bw bh (Some normal).

Definition dragging (bs : list ChartButton) (offset : Z * Z) : State :=
  mkState bs false None (Some "b1"%string) true false offset None.

Definition resizing (bs : list ChartButton) (dir : Direction) : State :=
  mkState bs false None (Some "b1"%string) false true (0, 0) (Some dir).

(** Same button up to its position. *)
Definition SameExceptPosition (b b' : ChartButton) : Prop :=
  id b' = id b /\ name b' = name b /\ color b' = color b /\
  linkedItem b' = linkedItem b /\ type b' = type b /\
  width b' = width b /\ height b' = height b.

(** The button the add action creates, pressed in its middle, dragged and
    released on an 800x500 canvas. *)
Definition addedThenDragged : State :=
  let added := handleSaveButtonProperties (handleAddButton 17 [] (idle [])) in
  let buttonRect := Dom.mkRect 50 50 120 40 in
  match buttons added with
  | button :: _ =>
      handleMouseUp
        (handleMouseMove (Some canvas800x500) (Dom.mkPointer 300 300)
           (handleMouseDown false (Dom.mkPointer 110 70) buttonRect buttonRect
                            button added))
  | [] => added
  end.

End Gesture.

(** ** The rest of the editor component: fields, hints, canvas controls *)

Module EditorControls.

Import Chart ChartEditor.

(** *** The text fields of the dialog *)

(** [{ ...prev, name: v }] and [{ ...prev, color: v }] *)
Definition withName (btn : ChartButton) (v : string) : ChartButton :=
  mkButton (id btn) v (color btn) (linkedItem btn)
           (x btn) (y btn) (width btn) (height btn) (type btn).

Definition withColor (btn : ChartButton) (v : string) : ChartButton :=
  mkButton (id btn) (name btn) v (linkedItem btn)
           (x btn) (y btn) (width btn) (height btn) (type btn).

(** The [onChange] handlers of the name and color inputs. *)
Definition handleNameChange (value : string) (st : State) : State :=
  setEditingButton
    (fun prev =>
       match prev with
       | Some prev => Some (withName prev value)
       | None => None
       end) st.

Definition handleColorChange (value : string) (st : State) : State :=
  setEditingButton
    (fun prev =>
       match prev with
       | Some prev => Some (withColor prev value)
       | None => None
       end) st.

(** One change made in the open dialog, and a sequence of them. *)
Inductive DraftEdit :=
| EditName (value : string)
| EditColor (value : string)
| EditLink (value : string)
| EditWidth (value : string)
| EditHeight (value : string).

Definition applyEdit (ed : DraftEdit) (st : State) : State :=
  match ed with
  | EditName v => handleNameChange v st
  | EditColor v => handleColorChange v st
  | EditLink v => handleLinkedItemChange v st
  | EditWidth v => handleWidthChange v st
  | EditHeight v => handleHeightChange v st
  end.

Definition runEdits (eds : list DraftEdit) (st : State) : State :=
  fold_left (fun acc ed => applyEdit ed acc) eds st.

(** *** The canvas dimension fields *)

(** [parseInt(value, 10)]: with the radix given as 10 no [0x] prefix is
    recognised; [None] is [NaN]. *)
Definition parseIntRadix10 (value : string) : option Z :=
  let s := trimStart value in
  let '(sign, s) :=
    match s with
    | String "-" rest => (-1, rest)
    | String "+" rest => (1, rest)
    | _ => (1, s)
    end in
  option_map (Z.mul sign) (parseDigits 10 s None).

(** [handleDimensionChange(value, setter)]: the value handed to the
    setter. *)
Definition handleDimensionChange (value : string) : option Z :=
  parseIntRadix10 value.

(** [handleDimensionBlur(currentValue, setter)]: the content of the state
    cell after the handler. *)
Definition handleDimensionBlur (currentValue : option Z) : option Z :=
  let minSize := 100 in
  match currentValue with
  | None => Some minSize
  | Some v => if v <? minSize then Some minSize else currentValue
  end.

(** [stored || fallback] on an optional number: [undefined] (outer
    [None]), [NaN] (inner [None]) and [0] are falsy. *)
Definition orDefault (stored : option (option Z)) (fallback : Z) : option Z :=
  match stored with
  | Some (Some 0) => Some fallback
  | Some (Some v) => Some v
  | Some None => Some fallback
  | None => Some fallback
  end.

(** [handleMaximizeCanvas].  [canvasTop] is
    [canvasRef.current.getBoundingClientRect().top], a possibly fractional
    number ([None] when the ref is not attached); [parentClientWidth] is
    the integer [parentElement.clientWidth] ([None] when there is no
    parent).  The result is the new width and height, or [None] when the
    handler returns early. *)
Definition handleMaximizeCanvas (canvasTop : option Q)
           (parentClientWidth : option Z) (innerHeight : Z)
  : option (Z * Z) :=
  match canvasTop, parentClientWidth with
  | Some canvasTopOffset, Some newWidth =>
      let bottomPadding := 24 in
      let newHeight :=
        (inject_Z innerHeight - canvasTopOffset - inject_Z bottomPadding)%Q in
      Some (newWidth,
            Qfloor (if Qle_bool newHeight (inject_Z 100)
                    then inject_Z 100 else newHeight))
  | _, _ => None
  end.

(** *** The cursor hint *)

(** The direction tokens of [getResizeDirection]. *)
Definition directionToken (d : Direction) : string :=
  match d with
  | DirN => "n" | DirS => "s" | DirE => "e" | DirW => "w"
  | DirNE => "ne" | DirNW => "nw" | DirSE => "se" | DirSW => "sw"
  end.

(** [handleButtonMouseMove(e, button)]: the value assigned to
    [style.cursor], [None] when the handler returns without assigning. *)
Definition handleButtonMouseMove (e : Dom.Pointer) (targetRect : Dom.Rect)
           (st : State) : option string :=
  if isDragging st || isResizing st then None
  else
    match getResizeDirection (Dom.MouseEv e) targetRect with
    | Some direction => Some (directionToken direction ++ "-resize")%string
    | None => Some "grab"%string
    end.

Definition handleButtonMouseLeave (st : State) : option string :=
  if isDragging st || isResizing st then None else Some "default"%string.

(** *** Opening a chart and going back *)

(** [StoredChart]; an optional number is [None] when undefined and
    [Some None] when [NaN]. *)
Record StoredChart := mkChart {
  chart_id : string;
  chart_name : string;
  chart_buttons : list ChartButton;
  chart_canvasWidth : option (option Z);
  chart_canvasHeight : option (option Z)
}.

(** The component: its [chart] prop, the state cells not in [State]
    ([None] in a canvas cell is [NaN]), and the cells of [State]. *)
Record Editor := mkEditor {
  chart : StoredChart;
  chartName : string;
  canvasWidth : option Z;
  canvasHeight : option Z;
  ui : State
}.

(** The initial values of the [useState] cells. *)
Definition openChart (c : StoredChart) : Editor :=
  mkEditor c (chart_name c)
           (orDefault (chart_canvasWidth c) 800)
           (orDefault (chart_canvasHeight c) 500)
           (mkState (chart_buttons c) false None None false false (0, 0) None).

(** The calls of the props made by a handler. *)
Inductive EditorEffect :=
| OnSaveChart (updatedChart : StoredChart)
| OnBackToCharts.

Definition handleBackButtonClick (ed : Editor) : list EditorEffect :=
  let updatedChart :=
    mkChart (chart_id (chart ed)) (chartName ed) (buttons (ui ed))
            (Some (canvasWidth ed)) (Some (canvasHeight ed)) in
  [OnSaveChart updatedChart; OnBackToCharts].

End EditorControls.

(** ** Whole interactions *)

Module Interaction.

Import Chart ChartEditor Gesture.

(** The events of the editor canvas, with what the handlers read from
    the DOM when they run. *)
Inductive EditorEvent :=
| MouseDown (onSettingsIcon : bool) (e : Dom.Pointer)
            (targetRect currentTargetRect : Dom.Rect) (button : ChartButton)
| TouchStart (onSettingsIcon : bool) (touch : Dom.Pointer)
             (others : list Dom.Pointer)
             (targetRect currentTargetRect : Dom.Rect) (button : ChartButton)
| Moved (ev : MoveEvent)
| Released.

Definition handleEvent (ev : EditorEvent) (st : State) : State :=
  match ev with
  | MouseDown icon e targetRect currentTargetRect button =>
      handleMouseDown icon e targetRect currentTargetRect button st
  | TouchStart icon touch others targetRect currentTargetRect button =>
      handleTouchStart icon touch others targetRect currentTargetRect button st
  | Moved m => applyMove m st
  | Released => handleMouseUp st
  end.

Definition runEvents (evs : list EditorEvent) (st : State) : State :=
  fold_left (fun acc ev => handleEvent ev acc) evs st.

(** The event, when it is a move, sees a canvas of the given
    dimensions. *)
Definition eventOnCanvas (canvasWidth canvasHeight : Z) (ev : EditorEvent)
  : Prop :=
  match ev with
  | Moved m => onCanvas canvasWidth canvasHeight m
  | _ => True
  end.

(** What a gesture must not touch in a button. *)
Definition identityOf (b : ChartButton)
  : string * string * string * string * option ButtonType :=
  (id b, name b, color b, linkedItem b, type b).

(** The sides of the box that a resize direction moves. *)
Definition movesWest (d : Direction) : bool :=
  match d with DirW | DirNW | DirSW => true | _ => false end.

Definition movesEast (d : Direction) : bool :=
  match d with DirE | DirNE | DirSE => true | _ => false end.

Definition movesNorth (d : Direction) : bool :=
  match d with DirN | DirNE | DirNW => true | _ => false end.

Definition movesSouth (d : Direction) : bool :=
  match d with DirS | DirSE | DirSW => true | _ => false end.

(** Left-right and top-bottom mirror images of a zone. *)
Definition mirrorEastWest (d : option Direction) : option Direction :=
  match d with
  | Some DirE => Some DirW | Some DirW => Some DirE
  | Some DirNE => Some DirNW | Some DirNW => Some DirNE
  | Some DirSE => Some DirSW | Some DirSW => Some DirSE
  | other => other
  end.

Definition mirrorNorthSouth (d : option Direction) : option Direction :=
  match d with
  | Some DirN => Some DirS | Some DirS => Some DirN
  | Some DirNE => Some DirSE | Some DirSE => Some DirNE
  | Some DirNW => Some DirSW | Some DirSW => Some DirNW
  | other => other
  end.

(** The role of a draft agrees with its link: label exactly when the link
    is the sentinel. *)
Definition LinkConsistent (b : ChartButton) : Prop :=
  type b = Some label <-> linkedItem b = "label-only"%string.


(** *** The viewer *)

(** What the viewer renders in its canvas. *)
Inductive Screen :=
| ButtonsScreen
| MatrixScreen (r : Range)
| MissingRangeText.

Definition screen (st : ChartViewer.State) : Screen :=
  if ChartViewer.showMatrixView st then
    match ChartViewer.displayedRange st with
    | Some r => MatrixScreen r
    | None => MissingRangeText
    end
  else ButtonsScreen.

(** The clicks the rendered viewer can receive: a chart button is
    rendered only when the matrix view is off, the back button only when
    it is on. *)
Inductive ViewerEvent :=
| Click (button : ChartButton)
| Back.

Definition viewerStep (allRanges : list Range) (ev : ViewerEvent)
           (st : ChartViewer.State) : ChartViewer.State :=
  match ev with
  | Click button =>
      if ChartViewer.showMatrixView st then st
      else fst (ChartViewer.handleButtonClick allRanges button st)
  | Back =>
      if ChartViewer.showMatrixView st
      then ChartViewer.handleBackToButtons st
      else st
  end.

Definition runViewer (allRanges : list Range) (evs : list ViewerEvent)
           (st : ChartViewer.State) : ChartViewer.State :=
  fold_left (fun acc ev => viewerStep allRanges ev acc) evs st.

Definition viewerStart : ChartViewer.State := ChartViewer.mkState None false.

(** What holds of every state the viewer reaches: the matrix view is on
    exactly when a range, one of the supplied ones, is displayed. *)
Definition ViewerInv (allRanges : list Range) (st : ChartViewer.State) : Prop :=
  (ChartViewer.showMatrixView st = false /\
   ChartViewer.displayedRange st = None) \/
  (ChartViewer.showMatrixView st = true /\
   exists r, ChartViewer.displayedRange st = Some r /\ In r allRanges).

End Interaction.

(** * Properties *)

Import Chart ChartEditor Gesture.

(** ** Lists updated through [map] by identifier *)

Section UpdateById.

Variable activeId : string.
Variable upd : ChartButton -> ChartButton.
Hypothesis upd_id : forall b, id (upd b) = id b.

Let step (btn : ChartButton) : ChartButton :=
  if String.eqb (id btn) activeId then upd btn else btn.

Lemma find_map_update (bs : list ChartButton) (cur : ChartButton) :
  find (fun b => String.eqb (id b) activeId) bs = Some cur ->
  find (fun b => String.eqb (id b) activeId) (map step bs) = Some (upd cur).
Proof.
  induction bs as [|b bs IH]; simpl; [discriminate|].
  unfold step at 1.
  destruct (String.eqb (id b) activeId) eqn:E.
  - intros [= ->]. rewrite upd_id, E. unfold step. now rewrite E.
  - rewrite E. exact IH.
Qed.

Lemma In_map_update (bs : list ChartButton) (b' : ChartButton) :
  In b' (map step bs) ->
  exists b, In b bs /\
            (b' = b \/ (id b = activeId /\ b' = upd b)).
Proof.
  rewrite in_map_iff. intros (b & <- & Hin). exists b. split; [exact Hin|].
  unfold step. destruct (String.eqb_spec (id b) activeId); auto.
Qed.

End UpdateById.

Lemma withXY_id (nx ny : Z) (b : ChartButton) : id (withXY b nx ny) = id b.
Proof. reflexivity. Qed.

Lemma withGeometry_id (nx ny nw nh : Z) (b : ChartButton) :
  id (withGeometry b nx ny nw nh) = id b.
Proof. reflexivity. Qed.

Lemma activeTarget_setButtons f st :
  activeTarget (setButtons f st) = activeTarget st.
Proof. reflexivity. Qed.

(** [handleTouchMove] either leaves the state alone or is [moveWith] on the
    first touch. *)
Lemma handleTouchMove_cases canvasRef touches st :
  handleTouchMove canvasRef touches st = st \/
  exists touch, handleTouchMove canvasRef touches st = moveWith canvasRef touch st.
Proof.
  unfold handleTouchMove.
  destruct (activeTarget st); auto.
  destruct canvasRef; auto.
  destruct touches as [|touch rest]; eauto.
Qed.

(** ** Arithmetic of the clamps *)

Lemma dragPosition_bounds canvasRect offset p (b : ChartButton) :
  x b + width b <= Dom.width canvasRect -> 0 <= x b ->
  y b + height b <= Dom.height canvasRect -> 0 <= y b ->
  let '(nx, ny) := dragPosition canvasRect offset p b in
  0 <= nx /\ 0 <= ny /\
  nx + width b <= Dom.width canvasRect /\
  ny + height b <= Dom.height canvasRect.
Proof. unfold dragPosition; cbv zeta; lia. Qed.

Lemma clampToCanvas_bounds canvasRect g :
  minSize <= Dom.width canvasRect -> minSize <= Dom.height canvasRect ->
  minSize <= gwidth g -> minSize <= gheight g ->
  let g' := clampToCanvas canvasRect g in
  Fits canvasRect g' /\ minSize <= gwidth g' /\ minSize <= gheight g'.
Proof. unfold clampToCanvas, Fits, minSize; simpl; lia. Qed.

Lemma resizeCandidate_floor dir canvasRect p (b : ChartButton) :
  minSize <= width b -> minSize <= height b ->
  let g := resizeCandidate dir canvasRect p b in
  minSize <= gwidth g /\ minSize <= gheight g.
Proof. destruct dir; unfold resizeCandidate, minSize; simpl; lia. Qed.

Lemma clampToCanvas_fits canvasRect g :
  Fits canvasRect g -> clampToCanvas canvasRect g = g.
Proof.
  destruct g as [gx0 gy0 gw0 gh0]. unfold Fits, clampToCanvas; simpl.
  intros (Hx & Hy & Hw & Hh). f_equal; lia.
Qed.

(** ** C1: containment and minimum size along a gesture *)

Lemma moveWith_target_sound cw ch canvasRef p st b :
  minSize <= cw -> minSize <= ch ->
  match canvasRef with
  | Some r => Dom.width r = cw /\ Dom.height r = ch
  | None => True
  end ->
  target st = Some b -> Sound cw ch b ->
  exists b', target (moveWith canvasRef p st) = Some b' /\ Sound cw ch b'.
Proof.
  intros Hcw Hch Hcanvas Htarget Hsound.
  unfold target in *. unfold moveWith.
  destruct (activeTarget st) as [activeId|] eqn:Hact; [|discriminate].
  destruct canvasRef as [canvasRect|]; [|rewrite Hact; eauto].
  rewrite Htarget. destruct Hcanvas as [<- <-].
  destruct Hsound as [(Hx & Hy & Hxw & Hyh) [Hw Hh]].
  destruct (isDragging st).
  - pose proof (dragPosition_bounds canvasRect (dragOffset st) p b Hxw Hx Hyh Hy)
      as Hdrag.
    destruct (dragPosition canvasRect (dragOffset st) p b) as [nx ny].
    rewrite activeTarget_setButtons, Hact. cbn [buttons setButtons].
    exists (withXY b nx ny). split.
    + apply (find_map_update activeId (fun btn => withXY btn nx ny));
        [reflexivity | exact Htarget].
    + unfold Sound, Contained, AtLeastMinSize; simpl. lia.
  - destruct (isResizing st); [|rewrite Hact; eauto].
    + destruct (resizeDirection st) as [dir|].
      * rewrite activeTarget_setButtons, Hact. cbn [buttons setButtons].
        set (g := resizeGeometry dir canvasRect p b).
        exists (withGeometry b (gx g) (gy g) (gwidth g) (gheight g)). split.
        -- apply (find_map_update activeId
                    (fun btn => withGeometry btn (gx g) (gy g) (gwidth g) (gheight g)));
             [reflexivity | exact Htarget].
        -- destruct (resizeCandidate_floor dir canvasRect p b Hw Hh) as [Fw Fh].
           destruct (clampToCanvas_bounds canvasRect
                       (resizeCandidate dir canvasRect p b) Hcw Hch Fw Fh)
             as (Hfit & Gw & Gh).
           fold (resizeGeometry dir canvasRect p b) in Hfit, Gw, Gh. fold g in Hfit, Gw, Gh.
           unfold Fits in Hfit.
           unfold Sound, Contained, AtLeastMinSize; simpl. tauto.
      * rewrite Hact. eexists; split; [exact Htarget|].
        unfold Sound, Contained, AtLeastMinSize; tauto.
    + eexists; split; [exact Htarget|].
      unfold Sound, Contained, AtLeastMinSize; tauto.
Qed.

Lemma applyMove_target_sound cw ch ev st b :
  minSize <= cw -> minSize <= ch -> onCanvas cw ch ev ->
  target st = Some b -> Sound cw ch b ->
  exists b', target (applyMove ev st) = Some b' /\ Sound cw ch b'.
Proof.
  intros Hcw Hch Hon Ht Hs. destruct ev as [canvasRef e|canvasRef touches].
  - exact (moveWith_target_sound cw ch canvasRef e st b Hcw Hch Hon Ht Hs).
  - simpl. destruct (handleTouchMove_cases canvasRef touches st) as [->|[touch ->]].
    + eauto.
    + exact (moveWith_target_sound cw ch canvasRef touch st b Hcw Hch Hon Ht Hs).
Qed.

(** C1. Along every sequence of drag or resize moves (mouse or touch, any
    of the eight directions, any pointer position, inside the canvas or
    not), on a canvas whose dimensions are at least 100, a target button
    that starts inside the canvas with width and height at least 50 stays
    inside the canvas ([0 <= x], [0 <= y], [x + width <= canvasWidth],
    [y + height <= canvasHeight]) with width and height at least 50. *)
Theorem moves_keep_target_contained :
  forall (canvasWidth canvasHeight : Z) (evs : list MoveEvent)
         (st : State) (b : ChartButton),
    100 <= canvasWidth -> 100 <= canvasHeight ->
    Forall (onCanvas canvasWidth canvasHeight) evs ->
    target st = Some b ->
    Contained canvasWidth canvasHeight b ->
    50 <= width b -> 50 <= height b ->
    exists b',
      target (runMoves evs st) = Some b' /\
      Contained canvasWidth canvasHeight b' /\
      50 <= width b' /\ 50 <= height b'.
Proof.
  intros cw ch evs st b Hcw Hch Hevs Ht Hc Hw Hh.
  assert (Hs : Sound cw ch b) by (split; [exact Hc | split; assumption]).
  clear Hc Hw Hh. revert st b Ht Hs.
  induction Hevs as [|ev evs Hev _ IH]; intros st b Ht Hs.
  - exists b. destruct Hs as [Hc [Hw Hh]]. simpl. auto.
  - destruct (applyMove_target_sound cw ch ev st b) as (b1 & Ht1 & Hs1);
      try assumption; try (unfold minSize; lia).
    exact (IH (applyMove ev st) b1 Ht1 Hs1).
Qed.

(** A gesture that leaves the canvas on both sides: a north-west resize
    pulled to (-50,-50), then pushed far to the south-east. *)
Lemma moves_keep_target_contained_witness :
  exists b',
    target (runMoves [MouseMove (Some canvas800x500) (Dom.mkPointer (-50) (-50));
                      TouchMove (Some canvas800x500) [Dom.mkPointer 2000 900]]
                     (resizing [sampleButton 10 10 100 100] DirNW)) = Some b' /\
    Contained 800 500 b' /\ 50 <= width b' /\ 50 <= height b'.
Proof.
  apply (moves_keep_target_contained 800 500 _ _ (sampleButton 10 10 100 100)).
  - lia.
  - lia.
  - repeat constructor.
  - reflexivity.
  - unfold Contained; simpl; lia.
  - simpl; lia.
  - simpl; lia.
Defined.

(** ** C2: the minimum size in the collection *)

Lemma moveWith_min_size cw ch canvasRef p st :
  minSize <= cw -> minSize <= ch ->
  match canvasRef with
  | Some r => Dom.width r = cw /\ Dom.height r = ch
  | None => True
  end ->
  Forall AtLeastMinSize (buttons st) ->
  Forall AtLeastMinSize (buttons (moveWith canvasRef p st)).
Proof.
  intros Hcw Hch Hcanvas Hall. unfold moveWith.
  destruct (activeTarget st) as [activeId|]; [|exact Hall].
  destruct canvasRef as [canvasRect|]; [|exact Hall].
  destruct Hcanvas as [<- <-].
  destruct (find _ (buttons st)) as [cur|] eqn:Hfind; [|exact Hall].
  assert (Hcur : AtLeastMinSize cur).
  { apply find_some in Hfind. rewrite Forall_forall in Hall.
    apply Hall, Hfind. }
  destruct (isDragging st).
  - destruct (dragPosition canvasRect (dragOffset st) p cur) as [nx ny].
    cbn [buttons setButtons]. rewrite Forall_forall in *. intros b' Hin.
    apply (In_map_update activeId (fun btn => withXY btn nx ny)) in Hin.
    destruct Hin as (b & Hb & [->|[_ ->]]); [now apply Hall|].
    exact (Hall b Hb).
  - destruct (isResizing st); [|exact Hall].
    destruct (resizeDirection st) as [dir|]; [|exact Hall].
    cbn [buttons setButtons]. rewrite Forall_forall in *. intros b' Hin.
    set (g := resizeGeometry dir canvasRect p cur) in *.
    apply (In_map_update activeId
             (fun btn => withGeometry btn (gx g) (gy g) (gwidth g) (gheight g)))
      in Hin.
    destruct Hin as (b & Hb & [->|[_ ->]]); [now apply Hall|].
    destruct Hcur as [Hw Hh].
    destruct (resizeCandidate_floor dir canvasRect p cur Hw Hh) as [Fw Fh].
    destruct (clampToCanvas_bounds canvasRect
                (resizeCandidate dir canvasRect p cur) Hcw Hch Fw Fh)
      as (_ & Gw & Gh).
    split; assumption.
Qed.

(** C2, as the code has it.  The minimum size is kept by moves, not
    established by them: if every button of the collection has width and
    height at least 50 and the canvas is at least 100 in each dimension,
    every button still has width and height at least 50 after any sequence
    of drag or resize moves. *)
Theorem moves_preserve_min_size :
  forall (canvasWidth canvasHeight : Z) (evs : list MoveEvent) (st : State),
    100 <= canvasWidth -> 100 <= canvasHeight ->
    Forall (onCanvas canvasWidth canvasHeight) evs ->
    Forall AtLeastMinSize (buttons st) ->
    Forall AtLeastMinSize (buttons (runMoves evs st)).
Proof.
  intros cw ch evs st Hcw Hch Hevs. revert st.
  induction Hevs as [|ev evs Hev _ IH]; intros st Hall; [exact Hall|].
  simpl. apply IH.
  assert (Lw : minSize <= cw) by (unfold minSize; lia).
  assert (Lh : minSize <= ch) by (unfold minSize; lia).
  destruct ev as [canvasRef e|canvasRef touches].
  - exact (moveWith_min_size cw ch canvasRef e st Lw Lh Hev Hall).
  - simpl. destruct (handleTouchMove_cases canvasRef touches st) as [->|[touch ->]].
    + exact Hall.
    + exact (moveWith_min_size cw ch canvasRef touch st Lw Lh Hev Hall).
Qed.

Lemma moves_preserve_min_size_witness :
  Forall AtLeastMinSize
    (buttons (runMoves [MouseMove (Some canvas800x500) (Dom.mkPointer 20 700)]
                       (resizing [sampleButton 100 100 100 100;
                                  sampleButton 300 300 60 60] DirSW))).
Proof.
  apply (moves_preserve_min_size 800 500).
  - lia.
  - lia.
  - repeat constructor.
  - repeat constructor; unfold minSize; simpl; lia.
Defined.

(** C2 fails as stated: the add action creates a button of height 40, and
    the button still has height 40 after it is confirmed and a drag gesture
    on it has completed. *)
Lemma added_button_below_min_size :
  (exists b, In b (buttons (handleAddButton 17 [] (idle []))) /\
             height b = 40 /\ ~ AtLeastMinSize b) /\
  (exists b, buttons addedThenDragged = [b] /\
             x b = 240 /\ y b = 280 /\ width b = 120 /\ height b = 40 /\
             ~ AtLeastMinSize b).
Proof.
  split; eexists; (split; [simpl; eauto|]); simpl;
    unfold AtLeastMinSize, minSize; simpl; repeat split; lia.
Qed.

(** ** C9: what a drag move leaves alone *)

Lemma moveWith_drag_shape canvasRef p st :
  isDragging st = true ->
  moveWith canvasRef p st = st \/
  exists activeId nx ny,
    activeTarget st = Some activeId /\
    moveWith canvasRef p st =
      setButtons (updateById activeId (fun btn => withXY btn nx ny)) st.
Proof.
  intros Hdrag. unfold moveWith.
  destruct (activeTarget st) as [activeId|]; auto.
  destruct canvasRef as [canvasRect|]; auto.
  destruct (find _ (buttons st)) as [cur|]; auto.
  rewrite Hdrag.
  destruct (dragPosition canvasRect (dragOffset st) p cur) as [nx ny].
  right. exists activeId, nx, ny. split; reflexivity.
Qed.

Lemma activeTarget_Some st activeId :
  activeTarget st = Some activeId -> activeButtonId st = Some activeId.
Proof.
  unfold activeTarget. destruct (activeButtonId st) as [[|c s]|]; congruence.
Qed.

(** C9. A drag move (mouse or touch) changes nothing but the position of
    the target: the collection keeps its length and order, every button
    keeps its id, name, color, link, role, width and height, every button
    whose id is not the active one is unchanged, and so is the rest of the
    editor state. *)
Theorem drag_move_changes_position_only :
  forall (ev : MoveEvent) (st : State),
    isDragging st = true ->
    let st' := applyMove ev st in
    List.length (buttons st') = List.length (buttons st) /\
    (forall i b,
        nth_error (buttons st) i = Some b ->
        exists b',
          nth_error (buttons st') i = Some b' /\
          SameExceptPosition b b' /\
          (activeButtonId st <> Some (id b) -> b' = b)) /\
    isButtonModalOpen st' = isButtonModalOpen st /\
    editingButton st' = editingButton st /\
    activeButtonId st' = activeButtonId st /\
    isDragging st' = isDragging st /\
    isResizing st' = isResizing st /\
    dragOffset st' = dragOffset st /\
    resizeDirection st' = resizeDirection st.
Proof.
  intros ev st Hdrag.
  assert (Hsame : forall b, SameExceptPosition b b)
    by (intros b; repeat split).
  assert (Hshape : applyMove ev st = st \/
                   exists activeId nx ny,
                     activeTarget st = Some activeId /\
                     applyMove ev st =
                       setButtons (updateById activeId
                                     (fun btn => withXY btn nx ny)) st).
  { destruct ev as [canvasRef e|canvasRef touches]; simpl.
    - now apply moveWith_drag_shape.
    - destruct (handleTouchMove_cases canvasRef touches st) as [->|[touch ->]];
        [now left | now apply moveWith_drag_shape]. }
  cbv zeta. destruct Hshape as [->|(activeId & nx & ny & Hact & ->)].
  - repeat split. intros i b Hi. exists b. auto.
  - cbn [buttons setButtons isButtonModalOpen editingButton activeButtonId
         isDragging isResizing dragOffset resizeDirection].
    unfold updateById. rewrite length_map. repeat split.
    intros i b Hi. rewrite nth_error_map, Hi. simpl.
    destruct (String.eqb_spec (id b) activeId) as [Heq|Hne].
    + exists (withXY b nx ny). repeat split.
      intros Hno. exfalso. apply Hno.
      rewrite (activeTarget_Some st activeId Hact). now rewrite Heq.
    + exists b. auto.
Qed.

Lemma drag_move_changes_position_only_witness :
  let st := dragging [sampleButton 770 480 50 50; mkButton "b2" "B" "#000000"
                                                           "exit" 0 0 80 60
                                                           (Some exit)] (0, 0) in
  let st' := applyMove (MouseMove (Some canvas800x500)
                                  (Dom.mkPointer 1000 1000)) st in
  buttons st' = [sampleButton 750 450 50 50;
                 mkButton "b2" "B" "#000000" "exit" 0 0 80 60 (Some exit)] /\
  List.length (buttons st') = List.length (buttons st) /\
  activeButtonId st' = activeButtonId st.
Proof.
  cbv zeta. split; [reflexivity|].
  pose proof (drag_move_changes_position_only
                (MouseMove (Some canvas800x500) (Dom.mkPointer 1000 1000))
                (dragging [sampleButton 770 480 50 50;
                           mkButton "b2" "B" "#000000" "exit" 0 0 80 60
                                    (Some exit)] (0, 0))
                eq_refl) as H.
  cbv zeta in H. destruct H as (Hlen & _ & _ & _ & Hact & _).
  split; [exact Hlen | exact Hact].
Defined.

(** ** C4: replaying a move *)

Lemma updateById_idempotent activeId upd bs :
  (forall b, id (upd b) = id b) ->
  (forall b, upd (upd b) = upd b) ->
  updateById activeId upd (updateById activeId upd bs) =
  updateById activeId upd bs.
Proof.
  intros Hid Hupd. unfold updateById. rewrite map_map. apply map_ext.
  intros b. destruct (String.eqb (id b) activeId) eqn:E.
  - now rewrite Hid, E, Hupd.
  - now rewrite E.
Qed.

Lemma setButtons_twice f g st :
  setButtons f (setButtons g st) = setButtons (fun bs => f (g bs)) st.
Proof. reflexivity. Qed.

(** Replaying a resize on the rectangle it produced gives the same
    rectangle, when the clamp did not alter the first candidate. *)
Lemma resizeGeometry_replay dir canvasRect p (cur : ChartButton) :
  Fits canvasRect (resizeCandidate dir canvasRect p cur) ->
  let g := resizeGeometry dir canvasRect p cur in
  resizeGeometry dir canvasRect p
    (withGeometry cur (gx g) (gy g) (gwidth g) (gheight g)) = g.
Proof.
  intros Hfit. cbv zeta. unfold resizeGeometry.
  rewrite (clampToCanvas_fits _ _ Hfit).
  assert (Hsame :
            resizeCandidate dir canvasRect p
              (withGeometry cur
                 (gx (resizeCandidate dir canvasRect p cur))
                 (gy (resizeCandidate dir canvasRect p cur))
                 (gwidth (resizeCandidate dir canvasRect p cur))
                 (gheight (resizeCandidate dir canvasRect p cur))) =
            resizeCandidate dir canvasRect p cur).
  { destruct dir; unfold resizeCandidate, minSize; simpl; f_equal; lia. }
  rewrite Hsame. now apply clampToCanvas_fits.
Qed.

Lemma moveWith_replay canvasRef p st :
  (forall canvasRect dir cur,
      canvasRef = Some canvasRect ->
      isDragging st = false ->
      isResizing st = true ->
      resizeDirection st = Some dir ->
      target st = Some cur ->
      Fits canvasRect (resizeCandidate dir canvasRect p cur)) ->
  moveWith canvasRef p (moveWith canvasRef p st) = moveWith canvasRef p st.
Proof.
  intros Hfits. unfold moveWith at 2 3.
  destruct (activeTarget st) as [activeId|] eqn:Hact;
    [|unfold moveWith; now rewrite Hact].
  destruct canvasRef as [canvasRect|];
    [|unfold moveWith; now rewrite Hact].
  destruct (find _ (buttons st)) as [cur|] eqn:Hfind;
    [|unfold moveWith; now rewrite Hact, Hfind].
  assert (Htarget : target st = Some cur)
    by (unfold target; now rewrite Hact).
  destruct (isDragging st) eqn:Hdrag.
  - destruct (dragPosition canvasRect (dragOffset st) p cur) as [nx ny] eqn:Hpos.
    unfold moveWith. rewrite activeTarget_setButtons, Hact.
    cbn [buttons setButtons isDragging dragOffset].
    rewrite (find_map_update activeId (fun btn => withXY btn nx ny)
               (withXY_id nx ny) _ _ Hfind).
    rewrite Hdrag.
    change (dragPosition canvasRect (dragOffset st) p (withXY cur nx ny))
      with (dragPosition canvasRect (dragOffset st) p cur).
    rewrite Hpos.
    rewrite setButtons_twice. unfold setButtons. f_equal.
    now apply (updateById_idempotent activeId (fun btn => withXY btn nx ny)).
  - destruct (isResizing st) eqn:Hres;
      [|unfold moveWith; now rewrite Hact, Hfind, Hdrag, Hres].
    destruct (resizeDirection st) as [dir|] eqn:Hdir;
      [|unfold moveWith; now rewrite Hact, Hfind, Hdrag, Hres, Hdir].
    pose proof (resizeGeometry_replay dir canvasRect p cur
                  (Hfits canvasRect dir cur eq_refl eq_refl eq_refl eq_refl Htarget))
      as Hreplay.
    cbv zeta in Hreplay. cbv zeta.
    set (g := resizeGeometry dir canvasRect p cur) in *.
    unfold moveWith. rewrite activeTarget_setButtons, Hact.
    cbn [buttons setButtons isDragging isResizing resizeDirection].
    rewrite (find_map_update activeId
               (fun btn => withGeometry btn (gx g) (gy g) (gwidth g) (gheight g))
               (withGeometry_id _ _ _ _) _ _ Hfind).
    rewrite Hdrag, Hres, Hdir. cbv zeta. rewrite Hreplay.
    rewrite setButtons_twice. unfold setButtons. f_equal.
    now apply (updateById_idempotent activeId
                 (fun btn => withGeometry btn (gx g) (gy g) (gwidth g) (gheight g))).
Qed.

(** C4, as the code has it.  Replaying a move event (same pointer, same
    canvas box) is idempotent for every drag move, wherever the pointer is,
    and for every resize move whose candidate rectangle, computed by the
    first application with the minimum-size floor applied, already lies
    inside the canvas, so that the containment clamp leaves it as it is. *)
Theorem replay_idempotent_unless_clamped :
  forall (ev : MoveEvent) (st : State),
    (forall canvasRect p dir cur,
        canvasOf ev = Some canvasRect ->
        pointerOf ev = Some p ->
        isDragging st = false ->
        isResizing st = true ->
        resizeDirection st = Some dir ->
        target st = Some cur ->
        Fits canvasRect (resizeCandidate dir canvasRect p cur)) ->
    applyMove ev (applyMove ev st) = applyMove ev st.
Proof.
  intros [canvasRef e|canvasRef touches] st Hfits; simpl in *.
  - apply moveWith_replay. intros canvasRect dir cur Hc.
    now apply Hfits.
  - unfold handleTouchMove at 2 3.
    destruct (activeTarget st) as [activeId|] eqn:Hact;
      [|unfold handleTouchMove; now rewrite Hact].
    destruct canvasRef as [canvasRect|];
      [|unfold handleTouchMove; now rewrite Hact].
    destruct touches as [|touch rest];
      [unfold handleTouchMove; now rewrite Hact|].
    assert (Hreplay :
              moveWith (Some canvasRect) touch (moveWith (Some canvasRect) touch st)
              = moveWith (Some canvasRect) touch st).
    { apply moveWith_replay. intros r dir cur Hc. now apply Hfits. }
    unfold handleTouchMove.
    destruct (activeTarget (moveWith (Some canvasRect) touch st));
      [exact Hreplay | reflexivity].
Qed.

Lemma replay_idempotent_unless_clamped_witness :
  let ev := MouseMove (Some canvas800x500) (Dom.mkPointer 60 40) in
  let st := resizing [sampleButton 100 100 100 100] DirNW in
  buttons (applyMove ev st) = [sampleButton 60 40 140 160] /\
  applyMove ev (applyMove ev st) = applyMove ev st.
Proof.
  cbv zeta. split; [reflexivity|].
  apply replay_idempotent_unless_clamped.
  intros canvasRect p dir cur Hc Hp _ _ Hd Ht.
  injection Hc as <-. injection Hp as <-. injection Hd as <-.
  injection Ht as <-.
  unfold Fits; simpl; lia.
Defined.

(** C4 fails as stated: an east resize of the button at (100,100), size
    100x100, with the pointer at (850,150), right of the 800x500 canvas,
    gives x = 50, width = 750; the same event once more gives x = 0,
    width = 800. *)
Lemma replay_not_idempotent_when_clamped :
  let ev := MouseMove (Some canvas800x500) (Dom.mkPointer 850 150) in
  let st := resizing [sampleButton 100 100 100 100] DirE in
  buttons (applyMove ev st) = [sampleButton 50 100 750 100] /\
  buttons (applyMove ev (applyMove ev st)) = [sampleButton 0 100 800 100] /\
  applyMove ev (applyMove ev st) <> applyMove ev st.
Proof.
  cbv zeta. split; [reflexivity|]. split; [reflexivity|].
  intros H. apply (f_equal buttons) in H. discriminate H.
Qed.

(** ** C6: the opposite edge in a west or north resize *)

(** C6, as the code has it.  A west resize sets x to the pointer's
    canvas-local x and the width to the distance from there to the east
    edge, floored at 50; the candidate's right edge is the button's
    pre-move right edge whenever that distance is at least 50, that is,
    whenever the floor does not bind.  A north resize does the same with
    y, the height and the bottom edge. *)
Theorem west_north_resize_keeps_opposite_edge :
  forall (canvasRect : Dom.Rect) (p : Dom.Pointer) (b : ChartButton),
    let localX := Dom.clientX p - Dom.left canvasRect in
    let localY := Dom.clientY p - Dom.top canvasRect in
    let gw := resizeCandidate DirW canvasRect p b in
    let gn := resizeCandidate DirN canvasRect p b in
    (gx gw = localX /\
     gwidth gw = Z.max 50 (x b + width b - localX) /\
     gy gw = y b /\ gheight gw = height b /\
     (50 <= x b + width b - localX -> gx gw + gwidth gw = x b + width b)) /\
    (gy gn = localY /\
     gheight gn = Z.max 50 (y b + height b - localY) /\
     gx gn = x b /\ gwidth gn = width b /\
     (50 <= y b + height b - localY -> gy gn + gheight gn = y b + height b)).
Proof.
  intros canvasRect p b. unfold resizeCandidate, minSize; simpl.
  repeat split; try lia; f_equal; lia.
Qed.

Lemma west_north_resize_keeps_opposite_edge_witness :
  let gw := resizeCandidate DirW canvas800x500
              (Dom.mkPointer 80 150) (sampleButton 100 100 100 100) in
  gx gw + gwidth gw = 200.
Proof.
  cbv zeta.
  destruct (west_north_resize_keeps_opposite_edge canvas800x500
              (Dom.mkPointer 80 150) (sampleButton 100 100 100 100))
    as [(_ & _ & _ & _ & Hedge) _].
  apply Hedge. simpl. lia.
Defined.

(** C6 fails as stated: with the button at x = 100, width = 100 and the
    pointer at canvas-local x = 180, the floor binds (the width becomes 50)
    and the candidate's right edge is 230, not the pre-move 200; likewise
    for the bottom edge in a north resize. *)
Lemma west_resize_moves_east_edge_at_floor :
  let b := sampleButton 100 100 100 100 in
  let gw := resizeCandidate DirW canvas800x500 (Dom.mkPointer 180 150) b in
  let gn := resizeCandidate DirN canvas800x500 (Dom.mkPointer 150 180) b in
  gwidth gw = 50 /\ gx gw + gwidth gw = 230 /\
  gx gw + gwidth gw <> x b + width b /\
  gheight gn = 50 /\ gy gn + gheight gn = 230 /\
  gy gn + gheight gn <> y b + height b.
Proof. cbv zeta. simpl. repeat split; lia. Qed.

(** ** C3: the north-west resize of scenario 3 *)

Lemma eqb_id_refl (s : string) : String.eqb s s = true.
Proof. apply String.eqb_refl. Qed.

(** C3, as the code has it.  Wherever the 800x500 canvas sits on screen
    and whatever the button's other fields, one north-west resize move of
    the button at (10,10), size 100x100, with the pointer at canvas-local
    (-50,-50) puts the button at (0,0) with width 160 and height 160: x and
    y clamp to 0, the size is the original 100 plus the 60 units between
    the pointer and the old corner, the rectangle is non-negative and
    inside the canvas, and its bottom-right corner is (160,160). *)
Theorem scenario3_nw_resize :
  forall (bid nm col link : string) (role : option ButtonType)
         (canvasLeft canvasTop : Z) (st : State),
    bid <> ""%string ->
    buttons st = [mkButton bid nm col link 10 10 100 100 role] ->
    activeButtonId st = Some bid ->
    isDragging st = false -> isResizing st = true ->
    resizeDirection st = Some DirNW ->
    buttons (handleMouseMove
               (Some (Dom.mkRect canvasLeft canvasTop 800 500))
               (Dom.mkPointer (canvasLeft - 50) (canvasTop - 50)) st)
    = [mkButton bid nm col link 0 0 160 160 role].
Proof.
  intros bid nm col link role cl ct st Hne Hbs Hact Hdrag Hres Hdir.
  unfold handleMouseMove, moveWith, activeTarget.
  rewrite Hact. destruct bid as [|c s]; [congruence|].
  rewrite Hbs. cbn [find id]. rewrite eqb_id_refl, Hdrag, Hres, Hdir.
  cbn [buttons setButtons]. rewrite Hbs. cbn [map id]. rewrite eqb_id_refl.
  unfold withGeometry, resizeGeometry, clampToCanvas, resizeCandidate, minSize.
  cbn [gx gy gwidth gheight id name color linkedItem type x y width height
       Dom.left Dom.top Dom.width Dom.height Dom.clientX Dom.clientY].
  repeat f_equal; lia.
Qed.

Lemma scenario3_nw_resize_witness :
  buttons (handleMouseMove (Some (Dom.mkRect 24 96 800 500))
                           (Dom.mkPointer (24 - 50) (96 - 50))
                           (resizing [sampleButton 10 10 100 100] DirNW))
  = [sampleButton 0 0 160 160].
Proof.
  apply (scenario3_nw_resize "b1" "A" "#60A5FA" "R1" (Some normal) 24 96);
    try reflexivity.
  discriminate.
Defined.

(** C3 fails as stated: the resulting rectangle reaches (160,160), beyond
    the button's original bottom-right corner (110,110). *)
Lemma scenario3_exceeds_original_corner :
  exists b,
    buttons (handleMouseMove (Some canvas800x500) (Dom.mkPointer (-50) (-50))
                             (resizing [sampleButton 10 10 100 100] DirNW))
    = [b] /\
    x b = 0 /\ y b = 0 /\ width b = 160 /\ height b = 160 /\
    ~ (x b + width b <= 110 /\ y b + height b <= 110).
Proof.
  eexists. split; [reflexivity|]. simpl. repeat split; lia.
Qed.

(** ** C5: cancelling the dialog of a new button *)

Lemma filter_absent_id (editingId : string) (bs : list ChartButton) :
  existsb (fun b => String.eqb (id b) editingId) bs = false ->
  filter (fun b => negb (String.eqb (id b) editingId)) bs = bs.
Proof.
  induction bs as [|b bs IH]; simpl; [reflexivity|].
  destruct (String.eqb (id b) editingId); simpl; [discriminate|].
  intros H. now rewrite IH.
Qed.

Lemma handleCancelButtonProperties_buttons st :
  buttons (handleCancelButtonProperties st) = buttons st.
Proof.
  unfold handleCancelButtonProperties. cbn [buttons].
  destruct (editingButton st) as [editing|]; [|reflexivity].
  destruct (existsb _ (buttons st)) eqn:E; simpl; [reflexivity|].
  now apply filter_absent_id.
Qed.

(** C5 does not hold of the code.  Cancelling never changes the
    collection; cancelling the dialog the add action opened leaves the new
    button in it, so the collection is the one before the add with the new
    button appended, and differs from the collection before the add. *)
Theorem cancel_after_add_keeps_new_button :
  forall (now : N) (allRanges : list Range) (st : State),
    let added := handleAddButton now allRanges st in
    let cancelled := handleCancelButtonProperties added in
    (exists newButton,
        editingButton added = Some newButton /\
        buttons added = (buttons st ++ [newButton])%list /\
        buttons cancelled = (buttons st ++ [newButton])%list) /\
    buttons cancelled <> buttons st /\
    editingButton cancelled = None /\
    isButtonModalOpen cancelled = false.
Proof.
  intros now allRanges st. cbv zeta.
  rewrite handleCancelButtonProperties_buttons.
  split; [eexists; repeat split|split; [|split; reflexivity]].
  cbn [buttons handleAddButton]. intros H.
  apply (f_equal (@List.length ChartButton)) in H.
  rewrite length_app in H. simpl in H. lia.
Qed.

(** ** C7: activating a button in the viewer *)

Lemma find_range_found (wanted : string) (rs : list Range) (r : Range) :
  In r rs -> range_id r = wanted ->
  exists r', find (fun range => String.eqb (range_id range) wanted) rs = Some r'
             /\ In r' rs /\ range_id r' = wanted.
Proof.
  intros Hin Hid.
  destruct (find (fun range => String.eqb (range_id range) wanted) rs)
    as [r'|] eqn:Hfind.
  - exists r'. apply find_some in Hfind. destruct Hfind as [Hin' Heq].
    apply String.eqb_eq in Heq. auto.
  - apply (find_none _ _ Hfind) in Hin. rewrite Hid, String.eqb_refl in Hin.
    discriminate.
Qed.

Lemma find_range_missing (wanted : string) (rs : list Range) :
  (forall r, In r rs -> range_id r <> wanted) ->
  find (fun range => String.eqb (range_id range) wanted) rs = None.
Proof.
  intros Hnone.
  destruct (find (fun range => String.eqb (range_id range) wanted) rs)
    as [r'|] eqn:Hfind; [|reflexivity].
  apply find_some in Hfind. destruct Hfind as [Hin Heq].
  apply String.eqb_eq in Heq. now apply Hnone in Hin.
Qed.

(** C7. Activation dispatches on the role.  [exit]: the state is kept and
    the only effect is the navigation back to the chart list, whatever the
    supplied ranges are (they are not consulted).  [label]: nothing happens.
    [normal]: if some supplied range has the linked id, a range with that
    id is displayed (matrix view on) and nothing is signalled; if none has
    it, the not-found notice is shown to the user and the displayed range
    is unset. *)
Theorem activation_dispatches_on_role :
  forall (allRanges : list Range) (button : ChartButton)
         (st : ChartViewer.State),
    (type button = Some exit ->
     forall otherRanges,
       ChartViewer.handleButtonClick otherRanges button st
       = (st, [ChartViewer.OnBackToCharts])) /\
    (type button = Some label ->
     ChartViewer.handleButtonClick allRanges button st = (st, [])) /\
    (type button = Some normal ->
     (exists r, In r allRanges /\ range_id r = linkedItem button) ->
     exists found,
       In found allRanges /\ range_id found = linkedItem button /\
       ChartViewer.handleButtonClick allRanges button st
       = (ChartViewer.mkState (Some found) true, [])) /\
    (type button = Some normal ->
     (forall r, In r allRanges -> range_id r <> linkedItem button) ->
     exists st',
       ChartViewer.handleButtonClick allRanges button st
       = (st', [ChartViewer.Alert ChartViewer.rangeNotFound]) /\
       ChartViewer.displayedRange st' = None /\
       ChartViewer.showMatrixView st' = ChartViewer.showMatrixView st).
Proof.
  intros allRanges button st. unfold ChartViewer.handleButtonClick.
  repeat split.
  - intros -> otherRanges. reflexivity.
  - intros ->. reflexivity.
  - intros -> (r & Hin & Hid).
    destruct (find_range_found (linkedItem button) allRanges r Hin Hid)
      as (found & -> & Hin' & Hid').
    exists found. auto.
  - intros -> Hnone.
    rewrite (find_range_missing (linkedItem button) allRanges Hnone).
    eexists. repeat split.
Qed.

(** Scenarios 4 and 5, and a successful lookup. *)
Lemma activation_dispatches_on_role_witness :
  let ranges := [mkRange "R0" "open"; mkRange "R2" "call"] in
  let unset := ChartViewer.mkState None false in
  ChartViewer.handleButtonClick ranges
    (mkButton "b9" "Back" "#000000" "" 0 0 80 60 (Some exit)) unset
  = (unset, [ChartViewer.OnBackToCharts]) /\
  ChartViewer.handleButtonClick ranges
    (mkButton "b8" "Note" "#000000" "label-only" 0 0 80 60 (Some label)) unset
  = (unset, []) /\
  (exists found,
      In found ranges /\ range_id found = "R2"%string /\
      ChartViewer.handleButtonClick ranges
        (mkButton "b7" "Call" "#000000" "R2" 0 0 80 60 (Some normal)) unset
      = (ChartViewer.mkState (Some found) true, [])) /\
  (exists st',
      ChartViewer.handleButtonClick ranges (sampleButton 0 0 80 60) unset
      = (st', [ChartViewer.Alert ChartViewer.rangeNotFound]) /\
      ChartViewer.displayedRange st' = None /\
      ChartViewer.showMatrixView st' = false).
Proof.
  cbv zeta.
  split.
  { apply (activation_dispatches_on_role
             [] (mkButton "b9" "Back" "#000000" "" 0 0 80 60 (Some exit))).
    reflexivity. }
  split.
  { apply (activation_dispatches_on_role
             [mkRange "R0" "open"; mkRange "R2" "call"]
             (mkButton "b8" "Note" "#000000" "label-only" 0 0 80 60 (Some label))).
    reflexivity. }
  split.
  { apply (activation_dispatches_on_role
             [mkRange "R0" "open"; mkRange "R2" "call"]
             (mkButton "b7" "Call" "#000000" "R2" 0 0 80 60 (Some normal))).
    - reflexivity.
    - exists (mkRange "R2" "call"). simpl. auto. }
  apply (activation_dispatches_on_role
           [mkRange "R0" "open"; mkRange "R2" "call"] (sampleButton 0 0 80 60)).
  - reflexivity.
  - simpl. intros r [<-|[<-|[]]]; simpl; discriminate.
Defined.

(** ** C8: the hit zones *)

Ltac zone_cases :=
  unfold classify, Zone, nearLeft, nearRight, nearTop, nearBottom, tolerance;
  repeat match goal with
         | |- context [?a <? ?b] => destruct (Z.ltb_spec a b)
         | |- context [?a >? ?b] =>
             rewrite (Z.gtb_ltb a b); destruct (Z.ltb_spec b a)
         end;
  cbn [andb].

Lemma classify_in_zone (px py boxWidth boxHeight : Z) :
  Zone px py boxWidth boxHeight (classify px py boxWidth boxHeight).
Proof. zone_cases; lia. Qed.

Lemma zone_unique (px py boxWidth boxHeight : Z) (d d' : option Direction) :
  2 * tolerance < boxWidth -> 2 * tolerance < boxHeight ->
  Zone px py boxWidth boxHeight d -> Zone px py boxWidth boxHeight d' ->
  d = d'.
Proof.
  unfold Zone, nearLeft, nearRight, nearTop, nearBottom, tolerance.
  intros Hw Hh Hd Hd'.
  destruct d as [[]|]; destruct d' as [[]|]; try reflexivity; exfalso; lia.
Qed.

(** C8. The classifier works on the position local to the box, the same
    for a mouse event and for the first touch of a touch event.  Its answer
    is always the zone of that position: a corner for a position in the
    8-unit bands of two adjacent sides, an edge for a position in one band
    and in no corner, none outside all bands.  When width and height exceed
    16 the zone of a position is unique, so the classifier returns it; in
    particular a position in the left band and in neither the top nor the
    bottom band is classified [w]. *)
Theorem hit_zone_classification :
  forall (p : Dom.Pointer) (others : list Dom.Pointer) (rect : Dom.Rect),
    let px := Dom.clientX p - Dom.left rect in
    let py := Dom.clientY p - Dom.top rect in
    let boxWidth := Dom.width rect in
    let boxHeight := Dom.height rect in
    getResizeDirection (Dom.MouseEv p) rect = classify px py boxWidth boxHeight /\
    getResizeDirection (Dom.TouchEv (p :: others)) rect
    = classify px py boxWidth boxHeight /\
    Zone px py boxWidth boxHeight (classify px py boxWidth boxHeight) /\
    (16 < boxWidth -> 16 < boxHeight ->
     forall d, Zone px py boxWidth boxHeight d ->
               classify px py boxWidth boxHeight = d) /\
    (16 < boxWidth -> 16 < boxHeight ->
     px < 8 -> 8 <= py -> py <= boxHeight - 8 ->
     classify px py boxWidth boxHeight = Some DirW).
Proof.
  intros p others rect. cbv zeta.
  split; [reflexivity|]. split; [reflexivity|].
  split; [apply classify_in_zone|]. split.
  - intros Hw Hh d Hd.
    apply (zone_unique (Dom.clientX p - Dom.left rect)
                       (Dom.clientY p - Dom.top rect)
                       (Dom.width rect) (Dom.height rect));
      [unfold tolerance; lia | unfold tolerance; lia
       | apply classify_in_zone | exact Hd].
  - intros Hw Hh Hx Hy1 Hy2.
    apply (zone_unique (Dom.clientX p - Dom.left rect)
                       (Dom.clientY p - Dom.top rect)
                       (Dom.width rect) (Dom.height rect));
      [unfold tolerance; lia | unfold tolerance; lia
       | apply classify_in_zone | ].
    unfold Zone, nearLeft, nearTop, nearBottom, tolerance. lia.
Qed.

Lemma hit_zone_classification_witness :
  classify (53 - 50) (70 - 50) 120 40 = Some DirW /\
  classify (53 - 50) (52 - 50) 120 40 = Some DirNW.
Proof.
  destruct (hit_zone_classification (Dom.mkPointer 53 70) []
              (Dom.mkRect 50 50 120 40)) as (_ & _ & _ & _ & Hwest).
  destruct (hit_zone_classification (Dom.mkPointer 53 52) []
              (Dom.mkRect 50 50 120 40)) as (_ & _ & _ & Huniq & _).
  split.
  - apply Hwest; simpl; lia.
  - apply Huniq; simpl; try lia.
    unfold nearLeft, nearTop, tolerance. lia.
Defined.

(** ** C10: confirming the dialog *)

(** C10. Confirmation replaces, in place, every stored button that has the
    draft's id by the draft itself and keeps the others: the draft's
    geometry is stored as entered, with no minimum-size floor and no
    containment clamp.  So a new button whose width field is cleared (the
    blank parses to 0) and whose height field is set to 9000 is stored with
    width 0, below the minimum of 50, and with a bottom edge outside an
    800x500 canvas. *)
Theorem confirm_stores_draft_verbatim :
  (forall (st : State) (draft : ChartButton),
      editingButton st = Some draft ->
      let saved := handleSaveButtonProperties st in
      buttons saved = updateById (id draft) (fun _ => draft) (buttons st) /\
      (forall i b, nth_error (buttons st) i = Some b ->
                   nth_error (buttons saved) i
                   = Some (if String.eqb (id b) (id draft) then draft else b)) /\
      editingButton saved = None /\ isButtonModalOpen saved = false) /\
  (let saved :=
     handleSaveButtonProperties
       (handleHeightChange "9000"
          (handleWidthChange "" (handleAddButton 17 [] (idle [])))) in
   exists b,
     buttons saved = [b] /\
     width b = 0 /\ height b = 9000 /\ x b = 50 /\ y b = 50 /\
     ~ AtLeastMinSize b /\ ~ Contained 800 500 b).
Proof.
  split.
  - intros st draft Hdraft. cbv zeta. unfold handleSaveButtonProperties.
    rewrite Hdraft. cbn [buttons editingButton isButtonModalOpen].
    repeat split. intros i b Hi. now rewrite nth_error_map, Hi.
  - cbv zeta. eexists. split; [vm_compute; reflexivity|].
    unfold AtLeastMinSize, Contained, minSize.
    cbn [x y width height]. repeat split; lia.
Qed.

Lemma confirm_stores_draft_verbatim_witness :
  let draft := sampleButton 790 10 3 0 in
  let st := handleSettingsClick draft
              (idle [sampleButton 10 10 100 100; sampleButton 10 10 100 100]) in
  buttons (handleSaveButtonProperties st) = [draft; draft].
Proof.
  cbv zeta.
  destruct confirm_stores_draft_verbatim as [Hgeneral _].
  destruct (Hgeneral
              (handleSettingsClick (sampleButton 790 10 3 0)
                 (idle [sampleButton 10 10 100 100; sampleButton 10 10 100 100]))
              (sampleButton 790 10 3 0) eq_refl) as (Hbuttons & _).
  rewrite Hbuttons. reflexivity.
Defined.

(** * Further properties of the components *)

Import EditorControls Interaction.

(** ** Moves without a target, and the end of a gesture *)

(** X1. A move event (mouse or touch) is a silent no-op when the session
    has no target: no active id, an empty active id, or an active id that
    no button of the collection carries (the button is gone). *)
Theorem move_without_target_is_noop :
  forall (ev : MoveEvent) (st : State),
    target st = None -> applyMove ev st = st.
Proof.
  intros ev st Hnone.
  assert (Hmove : forall canvasRef p, moveWith canvasRef p st = st).
  { intros canvasRef p. unfold moveWith. unfold target in Hnone.
    destruct (activeTarget st) as [activeId|]; [|reflexivity].
    destruct canvasRef; [|reflexivity]. now rewrite Hnone. }
  destruct ev as [canvasRef e|canvasRef touches]; simpl.
  - apply Hmove.
  - destruct (handleTouchMove_cases canvasRef touches st) as [->|[touch ->]];
      [reflexivity | apply Hmove].
Qed.

Lemma move_without_target_is_noop_witness :
  let st := dragging [mkButton "b2" "B" "#000000" "R1" 5 5 60 60 (Some normal)]
                     (3, 3) in
  applyMove (MouseMove (Some canvas800x500) (Dom.mkPointer 400 300)) st = st.
Proof.
  cbv zeta. apply move_without_target_is_noop. reflexivity.
Defined.

Lemma runMoves_noop evs st :
  (forall ev, applyMove ev st = st) -> runMoves evs st = st.
Proof.
  intros Hnoop. induction evs as [|ev evs IH]; simpl; [reflexivity|].
  rewrite Hnoop. exact IH.
Qed.

(** X2. Releasing the pointer ends the session whatever the state: the
    collection and the dialog are kept as they are (no rollback), the
    session cells are reset, and every move event that still arrives
    afterwards changes nothing. *)
Theorem release_ends_session :
  forall (st : State) (evs : list MoveEvent),
    let released := handleMouseUp st in
    buttons released = buttons st /\
    editingButton released = editingButton st /\
    isButtonModalOpen released = isButtonModalOpen st /\
    activeButtonId released = None /\
    isDragging released = false /\ isResizing released = false /\
    resizeDirection released = None /\
    runMoves evs released = released.
Proof.
  intros st evs. cbv zeta. repeat split.
  apply runMoves_noop. intros ev. now apply move_without_target_is_noop.
Qed.

(** ** What a gesture can change *)

Lemma moveWith_shape canvasRef p st :
  moveWith canvasRef p st = st \/
  exists activeId upd,
    (forall b, identityOf (upd b) = identityOf b) /\
    moveWith canvasRef p st = setButtons (updateById activeId upd) st.
Proof.
  unfold moveWith.
  destruct (activeTarget st) as [activeId|]; auto.
  destruct canvasRef as [canvasRect|]; auto.
  destruct (find _ (buttons st)) as [cur|]; auto.
  destruct (isDragging st).
  - destruct (dragPosition canvasRect (dragOffset st) p cur) as [nx ny].
    right. exists activeId, (fun btn => withXY btn nx ny). split; reflexivity.
  - destruct (isResizing st); auto.
    destruct (resizeDirection st) as [dir|]; auto.
    right. exists activeId.
    exists (fun btn =>
              withGeometry btn
                (gx (resizeGeometry dir canvasRect p cur))
                (gy (resizeGeometry dir canvasRect p cur))
                (gwidth (resizeGeometry dir canvasRect p cur))
                (gheight (resizeGeometry dir canvasRect p cur))).
    split; reflexivity.
Qed.

Lemma applyMove_shape ev st :
  applyMove ev st = st \/
  exists activeId upd,
    (forall b, identityOf (upd b) = identityOf b) /\
    applyMove ev st = setButtons (updateById activeId upd) st.
Proof.
  destruct ev as [canvasRef e|canvasRef touches]; simpl.
  - apply moveWith_shape.
  - destruct (handleTouchMove_cases canvasRef touches st) as [->|[touch ->]];
      [now left | apply moveWith_shape].
Qed.

Lemma updateById_identity activeId upd bs :
  (forall b, identityOf (upd b) = identityOf b) ->
  map identityOf (updateById activeId upd bs) = map identityOf bs.
Proof.
  intros Hupd. unfold updateById. rewrite map_map. apply map_ext.
  intros b. destruct (String.eqb (id b) activeId); auto.
Qed.

(** The state with another collection. *)
Lemma applyMove_only_buttons ev st :
  applyMove ev st = setButtons (fun _ => buttons (applyMove ev st)) st /\
  map identityOf (buttons (applyMove ev st)) = map identityOf (buttons st).
Proof.
  destruct (applyMove_shape ev st) as [->|(activeId & upd & Hupd & ->)].
  - split; [now destruct st | reflexivity].
  - split; [reflexivity|]. cbn [buttons setButtons].
    now apply updateById_identity.
Qed.

(** X3. Whatever the moves of a gesture (drag or resize, mouse or touch),
    the collection keeps its buttons in the same order with the same id,
    name, color, link and role: only geometry can change.  The dialog and
    session cells of the state are not touched either. *)
Theorem moves_change_geometry_only :
  forall (evs : list MoveEvent) (st : State),
    let st' := runMoves evs st in
    map identityOf (buttons st') = map identityOf (buttons st) /\
    List.length (buttons st') = List.length (buttons st) /\
    st' = setButtons (fun _ => buttons st') st.
Proof.
  intros evs st. cbv zeta.
  assert (H : map identityOf (buttons (runMoves evs st))
              = map identityOf (buttons st) /\
              runMoves evs st
              = setButtons (fun _ => buttons (runMoves evs st)) st).
  { revert st. induction evs as [|ev evs IH]; intros st; simpl.
    - split; [reflexivity | now destruct st].
    - destruct (IH (applyMove ev st)) as [Hid Hst].
      destruct (applyMove_only_buttons ev st) as [Hst1 Hid1].
      split; [now rewrite Hid|].
      rewrite Hst at 1.
      generalize (buttons (runMoves evs (applyMove ev st))). intros bs.
      now rewrite Hst1. }
  destruct H as [Hid Hst]. split; [exact Hid|]. split; [|exact Hst].
  apply (f_equal (@List.length _)) in Hid. now rewrite !length_map in Hid.
Qed.

(** ** Containment without assumptions on the starting geometry *)

Lemma clampToCanvas_inside canvasRect g :
  Fits canvasRect (clampToCanvas canvasRect g).
Proof. unfold clampToCanvas, Fits; simpl; lia. Qed.

(** X4. A resize move always leaves its target inside the canvas box it
    reads, whatever the target's geometry was before (for instance a button
    left outside by a smaller canvas), whatever the canvas dimensions and
    wherever the pointer is. *)
Theorem resize_move_always_contains :
  forall (canvasRect : Dom.Rect) (p : Dom.Pointer) (st : State)
         (dir : Direction) (cur : ChartButton),
    target st = Some cur ->
    isDragging st = false -> isResizing st = true ->
    resizeDirection st = Some dir ->
    exists b',
      target (handleMouseMove (Some canvasRect) p st) = Some b' /\
      Contained (Dom.width canvasRect) (Dom.height canvasRect) b'.
Proof.
  intros canvasRect p st dir cur Htarget Hdrag Hres Hdir.
  unfold target in *. unfold handleMouseMove, moveWith.
  destruct (activeTarget st) as [activeId|] eqn:Hact; [|discriminate].
  rewrite Htarget, Hdrag, Hres, Hdir.
  rewrite activeTarget_setButtons, Hact. cbn [buttons setButtons].
  set (g := resizeGeometry dir canvasRect p cur).
  exists (withGeometry cur (gx g) (gy g) (gwidth g) (gheight g)). split.
  - apply (find_map_update activeId
             (fun btn => withGeometry btn (gx g) (gy g) (gwidth g) (gheight g)));
      [reflexivity | exact Htarget].
  - exact (clampToCanvas_inside canvasRect
             (resizeCandidate dir canvasRect p cur)).
Qed.

Lemma resize_move_always_contains_witness :
  exists b',
    target (handleMouseMove (Some (Dom.mkRect 0 0 300 200))
                            (Dom.mkPointer 10000 (-70))
                            (resizing [sampleButton 700 450 100 100] DirNE))
    = Some b' /\
    Contained 300 200 b'.
Proof.
  apply (resize_move_always_contains (Dom.mkRect 0 0 300 200) _ _ DirNE
           (sampleButton 700 450 100 100)); reflexivity.
Defined.

(** X5. A drag move puts its target inside the canvas as soon as the
    button is no larger than the canvas, wherever it was before and
    wherever the pointer is.  On an axis where the button is larger than
    the canvas, the drag pins it at coordinate 0, and it overflows the
    opposite side. *)
Theorem drag_move_contains_fitting_button :
  forall (canvasRect : Dom.Rect) (p : Dom.Pointer) (st : State)
         (cur : ChartButton),
    target st = Some cur ->
    isDragging st = true ->
    exists b',
      target (handleMouseMove (Some canvasRect) p st) = Some b' /\
      width b' = width cur /\ height b' = height cur /\
      0 <= x b' /\ 0 <= y b' /\
      (width cur <= Dom.width canvasRect ->
       x b' + width b' <= Dom.width canvasRect) /\
      (height cur <= Dom.height canvasRect ->
       y b' + height b' <= Dom.height canvasRect) /\
      (Dom.width canvasRect < width cur ->
       x b' = 0 /\ Dom.width canvasRect < x b' + width b') /\
      (Dom.height canvasRect < height cur ->
       y b' = 0 /\ Dom.height canvasRect < y b' + height b').
Proof.
  intros canvasRect p st cur Htarget Hdrag.
  unfold target in *. unfold handleMouseMove, moveWith.
  destruct (activeTarget st) as [activeId|] eqn:Hact; [|discriminate].
  rewrite Htarget, Hdrag.
  destruct (dragPosition canvasRect (dragOffset st) p cur) as [nx ny] eqn:Hpos.
  rewrite activeTarget_setButtons, Hact. cbn [buttons setButtons].
  exists (withXY cur nx ny). split.
  - apply (find_map_update activeId (fun btn => withXY btn nx ny));
      [reflexivity | exact Htarget].
  - unfold dragPosition in Hpos. injection Hpos as <- <-.
    cbn [withXY x y width height]. repeat split; lia.
Qed.

Lemma drag_move_contains_fitting_button_witness :
  exists b',
    target (handleMouseMove (Some (Dom.mkRect 0 0 300 200))
                            (Dom.mkPointer 150 90)
                            (dragging [sampleButton 700 450 400 100] (5, 5)))
    = Some b' /\
    x b' = 0 /\ 300 < x b' + width b' /\ y b' = 85 /\
    y b' + height b' <= 200.
Proof.
  destruct (drag_move_contains_fitting_button
              (Dom.mkRect 0 0 300 200) (Dom.mkPointer 150 90)
              (dragging [sampleButton 700 450 400 100] (5, 5))
              (sampleButton 700 450 400 100) eq_refl eq_refl)
    as (b' & Ht & Hw & Hh & Hx & Hy & _ & Hfit & Hwide & _).
  exists b'. split; [exact Ht|].
  injection Ht as <-.
  destruct Hwide as [Hx0 Hover]; [simpl; lia|].
  split; [exact Hx0|]. split; [exact Hover|].
  split; [reflexivity|]. apply Hfit. simpl. lia.
Defined.

(** ** A press followed by a move *)

Lemma activeTarget_of_id (st : State) (bid : string) :
  bid <> ""%string -> activeButtonId st = Some bid ->
  activeTarget st = Some bid.
Proof.
  intros Hne Hact. unfold activeTarget. rewrite Hact.
  destruct bid; [congruence | reflexivity].
Qed.

(** X6. Pressing the body of a button (a zone classified as none, not the
    settings icon) and then moving the pointer by [(dx, dy)] puts the
    button at its old position plus [(dx, dy)] plus the offset [border]
    between the canvas box and the origin the button is laid out from,
    clamped into the canvas; width and height are kept.  [border] is 0
    when the button's box is at [canvas origin + (x, y)] exactly. *)
Theorem drag_gesture_displacement :
  forall (border dx dy : Z) (canvasRect targetRect buttonRect : Dom.Rect)
         (p0 : Dom.Pointer) (button : ChartButton) (st : State),
    id button <> ""%string ->
    find (fun b => String.eqb (id b) (id button)) (buttons st) = Some button ->
    getResizeDirection (Dom.MouseEv p0) targetRect = None ->
    Dom.left buttonRect = Dom.left canvasRect + border + x button ->
    Dom.top buttonRect = Dom.top canvasRect + border + y button ->
    let pressed := handleMouseDown false p0 targetRect buttonRect button st in
    let moved :=
      handleMouseMove (Some canvasRect)
        (Dom.mkPointer (Dom.clientX p0 + dx) (Dom.clientY p0 + dy)) pressed in
    target moved =
    Some (withXY button
            (Z.max 0 (Z.min (x button + border + dx)
                            (Dom.width canvasRect - width button)))
            (Z.max 0 (Z.min (y button + border + dy)
                            (Dom.height canvasRect - height button)))).
Proof.
  intros border dx dy canvasRect targetRect buttonRect p0 button st
         Hne Hfind Hzone Hleft Htop.
  cbv zeta. unfold handleMouseDown. rewrite Hzone.
  set (pressed := mkState _ _ _ _ _ _ _ _).
  assert (Hact : activeTarget pressed = Some (id button))
    by (apply activeTarget_of_id; [exact Hne | reflexivity]).
  unfold target, handleMouseMove, moveWith. rewrite Hact.
  cbn [buttons pressed isDragging dragOffset]. rewrite Hfind.
  unfold dragPosition. cbn [fst snd Dom.clientX Dom.clientY].
  rewrite activeTarget_setButtons, Hact. cbn [buttons setButtons].
  set (nx := Z.max 0 _). set (ny := Z.max 0 _).
  change (buttons pressed) with (buttons st).
  rewrite (find_map_update (id button) (fun btn => withXY btn nx ny)
             (withXY_id nx ny) _ _ Hfind).
  subst nx ny. unfold withXY. do 2 f_equal; f_equal; f_equal; lia.
Qed.

Lemma drag_gesture_displacement_witness :
  let button := sampleButton 100 100 120 40 in
  let canvasRect := Dom.mkRect 30 60 800 500 in
  let buttonRect := Dom.mkRect 132 162 120 40 in
  target (handleMouseMove (Some canvasRect) (Dom.mkPointer (190 + 25) (180 - 7))
            (handleMouseDown false (Dom.mkPointer 190 180) buttonRect buttonRect
                             button (idle [button])))
  = Some (sampleButton 127 95 120 40).
Proof.
  cbv zeta.
  apply (drag_gesture_displacement 2 25 (-7) (Dom.mkRect 30 60 800 500)
           (Dom.mkRect 132 162 120 40) (Dom.mkRect 132 162 120 40)
           (Dom.mkPointer 190 180) (sampleButton 100 100 120 40)
           (idle [sampleButton 100 100 120 40])).
  - discriminate.
  - reflexivity.
  - reflexivity.
  - reflexivity.
  - reflexivity.
Defined.

(** ** Resize with the pointer inside the canvas *)

(** X7. For a button inside the canvas and a pointer inside the canvas,
    in a direction whose minimum-size floor does not bind (the pointer is
    at least 50 from the opposite side on each axis the direction moves),
    a resize puts exactly the sides the direction names on the pointer
    and leaves the other sides where they were. *)
Theorem resize_sides_follow_pointer :
  forall (dir : Direction) (canvasRect : Dom.Rect) (p : Dom.Pointer)
         (b : ChartButton),
    let localX := Dom.clientX p - Dom.left canvasRect in
    let localY := Dom.clientY p - Dom.top canvasRect in
    let g := resizeGeometry dir canvasRect p b in
    Contained (Dom.width canvasRect) (Dom.height canvasRect) b ->
    0 <= localX <= Dom.width canvasRect ->
    0 <= localY <= Dom.height canvasRect ->
    (movesWest dir = true -> 50 <= x b + width b - localX) ->
    (movesEast dir = true -> 50 <= localX - x b) ->
    (movesNorth dir = true -> 50 <= y b + height b - localY) ->
    (movesSouth dir = true -> 50 <= localY - y b) ->
    gx g = (if movesWest dir then localX else x b) /\
    gx g + gwidth g = (if movesEast dir then localX else x b + width b) /\
    gy g = (if movesNorth dir then localY else y b) /\
    gy g + gheight g = (if movesSouth dir then localY else y b + height b).
Proof.
  intros dir canvasRect p b. cbv zeta.
  unfold Contained. intros (Hx & Hy & Hxw & Hyh) HlocalX HlocalY Hw He Hn Hs.
  unfold resizeGeometry.
  assert (Hfit : Fits canvasRect (resizeCandidate dir canvasRect p b)).
  { destruct dir; unfold Fits, resizeCandidate, minSize;
      cbn [gx gy gwidth gheight movesWest movesEast movesNorth movesSouth] in *;
      try specialize (Hw eq_refl); try specialize (He eq_refl);
      try specialize (Hn eq_refl); try specialize (Hs eq_refl); lia. }
  rewrite (clampToCanvas_fits _ _ Hfit).
  destruct dir; unfold resizeCandidate, minSize;
    cbn [gx gy gwidth gheight movesWest movesEast movesNorth movesSouth] in *;
    try specialize (Hw eq_refl); try specialize (He eq_refl);
    try specialize (Hn eq_refl); try specialize (Hs eq_refl); lia.
Qed.

Lemma resize_sides_follow_pointer_witness :
  let g := resizeGeometry DirSW (Dom.mkRect 30 60 800 500)
                          (Dom.mkPointer 70 460) (sampleButton 100 100 100 100) in
  gx g = 40 /\ gx g + gwidth g = 200 /\ gy g = 100 /\ gy g + gheight g = 400.
Proof.
  cbv zeta.
  apply (resize_sides_follow_pointer DirSW (Dom.mkRect 30 60 800 500)
           (Dom.mkPointer 70 460) (sampleButton 100 100 100 100));
    unfold Contained; simpl; try lia; discriminate.
Defined.

(** ** The canvas invariant across whole interactions *)

Lemma id_of_identity (bs bs' : list ChartButton) :
  map identityOf bs' = map identityOf bs -> map id bs' = map id bs.
Proof.
  intros H.
  assert (Hid : forall l, map id l
                          = map (fun t => fst (fst (fst (fst t))))
                                (map identityOf l))
    by (intros l; rewrite map_map; reflexivity).
  now rewrite (Hid bs'), (Hid bs), H.
Qed.

Lemma unique_id_find (bs : list ChartButton) (activeId : string)
      (cur b : ChartButton) :
  NoDup (map id bs) ->
  find (fun c => String.eqb (id c) activeId) bs = Some cur ->
  In b bs -> id b = activeId -> b = cur.
Proof.
  induction bs as [|c bs IH]; simpl; [discriminate|].
  intros Hnodup Hfind Hin Hid. inversion Hnodup as [|? ? Hnotin Hrest]; subst.
  destruct (String.eqb_spec (id c) (id b)) as [Heq|Hne].
  - injection Hfind as <-. destruct Hin as [->|Hin]; [reflexivity|].
    exfalso. apply Hnotin. rewrite Heq. now apply in_map.
  - destruct Hin as [->|Hin]; [congruence|]. now apply IH.
Qed.

Lemma moveWith_all_sound cw ch canvasRef p st :
  minSize <= cw -> minSize <= ch ->
  match canvasRef with
  | Some r => Dom.width r = cw /\ Dom.height r = ch
  | None => True
  end ->
  NoDup (map id (buttons st)) ->
  Forall (Sound cw ch) (buttons st) ->
  Forall (Sound cw ch) (buttons (moveWith canvasRef p st)).
Proof.
  intros Hcw Hch Hcanvas Hnodup Hall. unfold moveWith.
  destruct (activeTarget st) as [activeId|]; [|exact Hall].
  destruct canvasRef as [canvasRect|]; [|exact Hall].
  destruct Hcanvas as [<- <-].
  destruct (find _ (buttons st)) as [cur|] eqn:Hfind; [|exact Hall].
  assert (Hcur : Sound (Dom.width canvasRect) (Dom.height canvasRect) cur).
  { apply find_some in Hfind. rewrite Forall_forall in Hall.
    apply Hall, Hfind. }
  destruct Hcur as [(Hx & Hy & Hxw & Hyh) [Hw Hh]].
  destruct (isDragging st).
  - pose proof (dragPosition_bounds canvasRect (dragOffset st) p cur
                  Hxw Hx Hyh Hy) as Hdrag.
    destruct (dragPosition canvasRect (dragOffset st) p cur) as [nx ny].
    cbn [buttons setButtons]. rewrite Forall_forall in *. intros b' Hin.
    apply (In_map_update activeId (fun btn => withXY btn nx ny)) in Hin.
    destruct Hin as (b & Hb & [->|[Hid ->]]); [now apply Hall|].
    rewrite (unique_id_find _ _ cur b Hnodup Hfind Hb Hid).
    unfold Sound, Contained, AtLeastMinSize; simpl. lia.
  - destruct (isResizing st); [|exact Hall].
    destruct (resizeDirection st) as [dir|]; [|exact Hall].
    cbn [buttons setButtons]. rewrite Forall_forall in *. intros b' Hin.
    set (g := resizeGeometry dir canvasRect p cur) in *.
    apply (In_map_update activeId
             (fun btn => withGeometry btn (gx g) (gy g) (gwidth g) (gheight g)))
      in Hin.
    destruct Hin as (b & Hb & [->|[_ ->]]); [now apply Hall|].
    destruct (resizeCandidate_floor dir canvasRect p cur Hw Hh) as [Fw Fh].
    destruct (clampToCanvas_bounds canvasRect
                (resizeCandidate dir canvasRect p cur) Hcw Hch Fw Fh)
      as (Hfit & Gw & Gh).
    split; [exact Hfit | split; assumption].
Qed.

Lemma handleEvent_buttons_of_press ev st :
  match ev with Moved _ => False | _ => True end ->
  buttons (handleEvent ev st) = buttons st.
Proof.
  destruct ev as [icon e tr cr b|icon t o tr cr b|m|]; simpl; try tauto;
    intros _.
  - unfold handleMouseDown. destruct icon; [reflexivity|].
    now destruct (getResizeDirection _ _).
  - unfold handleTouchStart. destruct icon; [reflexivity|].
    now destruct (getResizeDirection _ _).
Qed.

(** X8. The canvas invariant of the data model is kept by whole
    interactions.  If the ids of the collection are pairwise distinct and
    every button is inside the canvas with width and height at least 50,
    then after any sequence of presses (mouse or touch, on any button),
    moves and releases on a canvas at least 50 wide and high, the ids are
    the same and every button of the collection is still inside the canvas
    with width and height at least 50. *)
Theorem interactions_keep_canvas_invariant :
  forall (canvasWidth canvasHeight : Z) (evs : list EditorEvent) (st : State),
    50 <= canvasWidth -> 50 <= canvasHeight ->
    Forall (eventOnCanvas canvasWidth canvasHeight) evs ->
    NoDup (map id (buttons st)) ->
    Forall (Sound canvasWidth canvasHeight) (buttons st) ->
    map id (buttons (runEvents evs st)) = map id (buttons st) /\
    Forall (Sound canvasWidth canvasHeight) (buttons (runEvents evs st)).
Proof.
  intros cw ch evs st Hcw Hch Hevs. revert st.
  induction Hevs as [|ev evs Hev _ IH]; intros st Hnodup Hall;
    [split; [reflexivity | exact Hall]|].
  simpl.
  assert (Hstep : map id (buttons (handleEvent ev st)) = map id (buttons st) /\
                  Forall (Sound cw ch) (buttons (handleEvent ev st))).
  { destruct ev as [icon e tr cr b|icon t o tr cr b|m|].
    - rewrite handleEvent_buttons_of_press by exact I. now split.
    - rewrite handleEvent_buttons_of_press by exact I. now split.
    - split.
      + apply id_of_identity. apply applyMove_only_buttons.
      + destruct m as [canvasRef e|canvasRef touches]; simpl.
        * now apply (moveWith_all_sound cw ch).
        * destruct (handleTouchMove_cases canvasRef touches st)
            as [->|[touch ->]]; [exact Hall|].
          now apply (moveWith_all_sound cw ch).
    - now split. }
  destruct Hstep as [Hid Hsound].
  destruct (IH (handleEvent ev st)) as [Hid' Hsound'];
    [now rewrite Hid | exact Hsound |].
  split; [now rewrite Hid' | exact Hsound'].
Qed.

Lemma interactions_keep_canvas_invariant_witness :
  let b1 := sampleButton 100 100 100 100 in
  let b2 := mkButton "b2" "B" "#000000" "R1" 300 300 60 60 (Some normal) in
  let r1 := Dom.mkRect 100 100 100 100 in
  Forall (Sound 800 500)
    (buttons (runEvents
                [MouseDown false (Dom.mkPointer 198 150) r1 r1 b1;
                 Moved (MouseMove (Some canvas800x500) (Dom.mkPointer 2000 150));
                 Released;
                 TouchStart false (Dom.mkPointer 330 330) []
                            (Dom.mkRect 300 300 60 60) (Dom.mkRect 300 300 60 60) b2;
                 Moved (TouchMove (Some canvas800x500) [Dom.mkPointer (-40) 900])]
                (idle [b1; b2]))).
Proof.
  cbv zeta.
  apply (interactions_keep_canvas_invariant 800 500).
  - lia.
  - lia.
  - repeat constructor.
  - simpl. repeat constructor; simpl; intuition discriminate.
  - repeat constructor; unfold minSize; simpl; lia.
Defined.

(** ** The button dialog *)

Lemma unique_id_eq (bs : list ChartButton) (a b : ChartButton) :
  NoDup (map id bs) -> In a bs -> In b bs -> id a = id b -> a = b.
Proof.
  induction bs as [|c bs IH]; simpl; [tauto|].
  intros Hnodup Ha Hb Hid. inversion Hnodup as [|? ? Hnotin Hrest]; subst.
  destruct Ha as [->|Ha], Hb as [->|Hb]; try reflexivity.
  - exfalso. apply Hnotin. rewrite Hid. now apply in_map.
  - exfalso. apply Hnotin. rewrite <- Hid. now apply in_map.
  - now apply IH.
Qed.

(** X9. Opening the dialog on a stored button and confirming it without a
    change leaves the collection exactly as it was, provided the ids of the
    collection are pairwise distinct. *)
Theorem confirm_unedited_keeps_collection :
  forall (st : State) (button : ChartButton),
    In button (buttons st) ->
    NoDup (map id (buttons st)) ->
    let confirmed := handleSaveButtonProperties (handleSettingsClick button st) in
    buttons confirmed = buttons st /\
    editingButton confirmed = None /\ isButtonModalOpen confirmed = false.
Proof.
  intros st button Hin Hnodup. cbv zeta.
  unfold handleSaveButtonProperties, handleSettingsClick.
  cbn [editingButton buttons isButtonModalOpen]. repeat split.
  rewrite <- (map_id (buttons st)) at 2. apply map_ext_in.
  intros b Hb. destruct (String.eqb_spec (id b) (id button)) as [Heq|]; auto.
  symmetry. now apply (unique_id_eq (buttons st)).
Qed.

Lemma confirm_unedited_keeps_collection_witness :
  let b1 := sampleButton 10 10 100 100 in
  let b2 := mkButton "b2" "B" "#000000" "R1" 300 300 60 60 (Some normal) in
  buttons (handleSaveButtonProperties (handleSettingsClick b2 (idle [b1; b2])))
  = [b1; b2].
Proof.
  cbv zeta.
  apply (confirm_unedited_keeps_collection
           (idle [sampleButton 10 10 100 100;
                  mkButton "b2" "B" "#000000" "R1" 300 300 60 60 (Some normal)])).
  - simpl. auto.
  - simpl. repeat constructor; simpl; intuition discriminate.
Defined.

(** X10. Confirmation never adds, removes or reorders buttons: the
    sequence of ids is the same afterwards, every button with another id
    than the draft's is kept, and when no stored button carries the draft's
    id the collection is unchanged, so the draft is dropped. *)
Theorem confirm_keeps_ids :
  forall (st : State),
    let confirmed := handleSaveButtonProperties st in
    map id (buttons confirmed) = map id (buttons st) /\
    (forall draft b,
        editingButton st = Some draft ->
        In b (buttons st) -> id b <> id draft -> In b (buttons confirmed)) /\
    (forall draft,
        editingButton st = Some draft ->
        ~ In (id draft) (map id (buttons st)) ->
        buttons confirmed = buttons st).
Proof.
  intros st. cbv zeta. unfold handleSaveButtonProperties.
  destruct (editingButton st) as [editing|];
    [|repeat split; intros; discriminate].
  cbn [buttons]. repeat split.
  - rewrite map_map. apply map_ext. intros b.
    destruct (String.eqb_spec (id b) (id editing)); congruence.
  - intros draft b [= <-] Hin Hne. apply in_map_iff. exists b.
    split; [|exact Hin].
    destruct (String.eqb_spec (id b) (id editing)); congruence.
  - intros draft [= <-] Hnotin.
    rewrite <- (map_id (buttons st)) at 2. apply map_ext_in.
    intros b Hb. destruct (String.eqb_spec (id b) (id editing)) as [Heq|]; auto.
    exfalso. apply Hnotin. rewrite <- Heq. now apply in_map.
Qed.

Lemma applyEdit_frame ed st :
  buttons (applyEdit ed st) = buttons st /\
  isButtonModalOpen (applyEdit ed st) = isButtonModalOpen st /\
  activeButtonId (applyEdit ed st) = activeButtonId st /\
  isDragging (applyEdit ed st) = isDragging st /\
  isResizing (applyEdit ed st) = isResizing st /\
  dragOffset (applyEdit ed st) = dragOffset st /\
  resizeDirection (applyEdit ed st) = resizeDirection st.
Proof. destruct ed; repeat split. Qed.

Lemma runEdits_frame eds st :
  buttons (runEdits eds st) = buttons st /\
  isButtonModalOpen (runEdits eds st) = isButtonModalOpen st /\
  activeButtonId (runEdits eds st) = activeButtonId st /\
  isDragging (runEdits eds st) = isDragging st /\
  isResizing (runEdits eds st) = isResizing st /\
  dragOffset (runEdits eds st) = dragOffset st /\
  resizeDirection (runEdits eds st) = resizeDirection st.
Proof.
  revert st. induction eds as [|ed eds IH]; intros st; simpl;
    [repeat split|].
  destruct (IH (applyEdit ed st)) as (H1 & H2 & H3 & H4 & H5 & H6 & H7).
  destruct (applyEdit_frame ed st) as (E1 & E2 & E3 & E4 & E5 & E6 & E7).
  repeat split; congruence.
Qed.

(** X11. Changes made in the dialog stay in the draft: whatever fields are
    edited, in whatever order, the collection is untouched until the
    dialog is confirmed, and cancelling afterwards leaves the collection
    as it was, clears the draft and closes the dialog. *)
Theorem cancel_discards_edits :
  forall (eds : list DraftEdit) (st : State),
    buttons (runEdits eds st) = buttons st /\
    let cancelled := handleCancelButtonProperties (runEdits eds st) in
    buttons cancelled = buttons st /\
    editingButton cancelled = None /\
    isButtonModalOpen cancelled = false.
Proof.
  intros eds st. destruct (runEdits_frame eds st) as (Hb & _).
  split; [exact Hb|]. cbv zeta.
  rewrite handleCancelButtonProperties_buttons. repeat split. exact Hb.
Qed.

Lemma applyEdit_draft ed st d :
  editingButton st = Some d ->
  exists d', editingButton (applyEdit ed st) = Some d' /\
             id d' = id d /\ x d' = x d /\ y d' = y d.
Proof.
  intros Hd. destruct ed as [v|v|v|v|v]; simpl;
    unfold handleNameChange, handleColorChange, handleLinkedItemChange,
      handleWidthChange, handleHeightChange, setEditingButton;
    cbn [editingButton]; rewrite Hd;
    try (eexists; split; [reflexivity | repeat split]).
  destruct (String.eqb v "label-only");
    (eexists; split; [reflexivity | repeat split]).
Qed.

Lemma runEdits_draft eds st d :
  editingButton st = Some d ->
  exists d', editingButton (runEdits eds st) = Some d' /\
             id d' = id d /\ x d' = x d /\ y d' = y d.
Proof.
  revert st d. induction eds as [|ed eds IH]; intros st d Hd; simpl.
  - exists d. auto.
  - destruct (applyEdit_draft ed st d Hd) as (d1 & Hd1 & I1 & X1 & Y1).
    destruct (IH (applyEdit ed st) d1 Hd1) as (d2 & Hd2 & I2 & X2 & Y2).
    exists d2. repeat split; congruence.
Qed.

(** X12. The dialog cannot move a button nor change which button it
    edits.  Opening it on a button, editing any fields and confirming
    replaces, in place, the buttons carrying that id by one draft that has
    the same id, x and y, and leaves every other button as it was. *)
Theorem edit_confirm_replaces_in_place :
  forall (eds : list DraftEdit) (button : ChartButton) (st : State),
    exists draft,
      id draft = id button /\ x draft = x button /\ y draft = y button /\
      buttons (handleSaveButtonProperties
                 (runEdits eds (handleSettingsClick button st)))
      = updateById (id button) (fun _ => draft) (buttons st).
Proof.
  intros eds button st.
  destruct (runEdits_draft eds (handleSettingsClick button st) button eq_refl)
    as (draft & Hdraft & Hid & Hx & Hy).
  exists draft. repeat split; try assumption.
  unfold handleSaveButtonProperties. rewrite Hdraft. cbn [buttons].
  destruct (runEdits_frame eds (handleSettingsClick button st)) as (-> & _).
  cbn [buttons handleSettingsClick]. now rewrite Hid.
Qed.

Lemma confirm_keeps_ids_witness :
  let stray := mkButton "b9" "Z" "#000000" "R1" 0 0 10 10 (Some normal) in
  let st := handleSettingsClick stray (idle [sampleButton 10 10 100 100]) in
  buttons (handleSaveButtonProperties st) = [sampleButton 10 10 100 100].
Proof.
  cbv zeta.
  destruct (confirm_keeps_ids
              (handleSettingsClick
                 (mkButton "b9" "Z" "#000000" "R1" 0 0 10 10 (Some normal))
                 (idle [sampleButton 10 10 100 100]))) as (_ & _ & Hdropped).
  apply (Hdropped (mkButton "b9" "Z" "#000000" "R1" 0 0 10 10 (Some normal)));
    [reflexivity|].
  simpl. intuition discriminate.
Defined.

Lemma applyEdit_link_consistent ed st d :
  editingButton st = Some d -> LinkConsistent d ->
  exists d', editingButton (applyEdit ed st) = Some d' /\ LinkConsistent d'.
Proof.
  intros Hd Hcons. destruct ed as [v|v|v|v|v]; simpl;
    unfold handleNameChange, handleColorChange, handleLinkedItemChange,
      handleWidthChange, handleHeightChange, setEditingButton;
    cbn [editingButton]; rewrite Hd;
    try (eexists; split; [reflexivity | exact Hcons]).
  destruct (String.eqb_spec v "label-only") as [->|Hne];
    (eexists; split; [reflexivity|]); unfold LinkConsistent; simpl.
  - tauto.
  - split; [discriminate | intros; contradiction].
Qed.

(** X13. The role of the draft and its link stay in step.  When the first
    linkable range is not itself called [label-only], the draft of a new
    button has role label exactly when its link is the sentinel
    [label-only], and this still holds after any sequence of edits in the
    dialog; choosing a link in the dialog sets role label for the sentinel
    and role normal for anything else. *)
Theorem draft_role_follows_link :
  forall (now : N) (allRanges : list Range) (eds : list DraftEdit)
         (st : State),
    match allRanges with
    | r :: _ => range_id r <> "label-only"%string
    | [] => True
    end ->
    exists draft,
      editingButton (runEdits eds (handleAddButton now allRanges st))
      = Some draft /\
      LinkConsistent draft.
Proof.
  intros now allRanges eds st Hfirst.
  assert (Hstart : exists d,
             editingButton (handleAddButton now allRanges st) = Some d /\
             LinkConsistent d).
  { eexists. split; [reflexivity|]. unfold LinkConsistent; simpl.
    destruct allRanges as [|r rest]; [tauto|].
    split; [discriminate | intros; contradiction]. }
  generalize dependent (handleAddButton now allRanges st). clear st Hfirst.
  induction eds as [|ed eds IH]; intros st (d & Hd & Hcons); simpl.
  - eauto.
  - apply IH. now apply (applyEdit_link_consistent ed st d).
Qed.

Lemma draft_role_follows_link_witness :
  exists draft,
    editingButton
      (runEdits [EditLink "label-only"; EditWidth "80"; EditLink "R2"]
                (handleAddButton 17 [mkRange "R1" "open"; mkRange "R2" "call"]
                                 (idle [])))
    = Some draft /\
    LinkConsistent draft.
Proof.
  apply (draft_role_follows_link 17 [mkRange "R1" "open"; mkRange "R2" "call"]).
  discriminate.
Defined.

(** ** Identifiers of new buttons *)

Lemma dateNowString_inj (n m : N) :
  dateNowString n = dateNowString m -> n = m.
Proof.
  unfold dateNowString. intros H.
  apply DecimalN.Unsigned.to_uint_inj.
  assert (Hsome : NilEmpty.uint_of_string (NilEmpty.string_of_uint (N.to_uint n))
                  = NilEmpty.uint_of_string
                      (NilEmpty.string_of_uint (N.to_uint m)))
    by now rewrite H.
  rewrite !NilEmpty.usu in Hsome. now injection Hsome.
Qed.

(** X14. The add action appends one button whose id is the decimal text of
    the clock value.  Different clock values give different ids; the ids
    of the collection stay pairwise distinct when the new id is not yet in
    use, and two adds at the same clock value create two buttons with the
    same id. *)
Theorem add_button_ids :
  forall (now : N) (allRanges : list Range) (st : State),
    let added := handleAddButton now allRanges st in
    map id (buttons added) = (map id (buttons st) ++ [dateNowString now])%list /\
    (forall other, dateNowString now = dateNowString other -> now = other) /\
    (NoDup (map id (buttons st)) ->
     ~ In (dateNowString now) (map id (buttons st)) ->
     NoDup (map id (buttons added))) /\
    (forall moreRanges,
        ~ NoDup (map id (buttons (handleAddButton now moreRanges added)))).
Proof.
  intros now allRanges st. cbv zeta.
  assert (Hids : forall rs s,
             map id (buttons (handleAddButton now rs s))
             = (map id (buttons s) ++ [dateNowString now])%list).
  { intros rs s. cbn [handleAddButton buttons]. now rewrite map_app. }
  split; [apply Hids|]. split; [apply dateNowString_inj|]. split.
  - intros Hnodup Hfresh. rewrite Hids.
    apply NoDup_app; repeat split; try assumption.
    + repeat constructor. simpl. tauto.
    + intros a Ha [<-|[]]. contradiction.
  - intros moreRanges Hnodup. rewrite !Hids in Hnodup.
    rewrite <- app_assoc in Hnodup. apply NoDup_remove_2 in Hnodup.
    apply Hnodup. apply in_or_app. right. simpl. auto.
Qed.

Lemma add_button_ids_witness :
  NoDup (map id (buttons (handleAddButton 18 []
                            (handleAddButton 17 [] (idle []))))).
Proof.
  destruct (add_button_ids 18 [] (handleAddButton 17 [] (idle [])))
    as (_ & _ & Hfresh & _).
  apply Hfresh.
  - simpl. repeat constructor. simpl. tauto.
  - simpl. intros [H|[]]. discriminate H.
Defined.

(** ** Numbers typed into fields *)









(** X16. Whatever text is typed in a canvas dimension field, once the
    field loses focus the dimension is a number, never [NaN], and at least
    100: a typed value of at least 100 is kept as typed, anything else
    (smaller, negative, blank or not a number) becomes 100.  Losing focus
    again changes nothing. *)
Theorem dimension_field_floor :
  forall (text : string),
    exists n,
      handleDimensionBlur (handleDimensionChange text) = Some n /\
      100 <= n /\
      (forall v, handleDimensionChange text = Some v -> 100 <= v -> n = v) /\
      (forall v, handleDimensionChange text = Some v -> v < 100 -> n = 100) /\
      (handleDimensionChange text = None -> n = 100) /\
      handleDimensionBlur (Some n) = Some n.
Proof.
  intros text. unfold handleDimensionBlur.
  destruct (handleDimensionChange text) as [v|].
  - destruct (Z.ltb_spec v 100).
    + exists 100. repeat split; try lia; try discriminate.
      intros v' [= <-]. lia.
    + exists v. repeat split; try lia; try discriminate.
      * now intros v' [= <-].
      * intros v' [= <-]. lia.
      * destruct (Z.ltb_spec v 100); [lia | reflexivity].
  - exists 100. repeat split; try lia; discriminate.
Qed.

Lemma dimension_field_floor_witness :
  handleDimensionBlur (handleDimensionChange "1024") = Some 1024 /\
  handleDimensionBlur (handleDimensionChange "64") = Some 100 /\
  handleDimensionBlur (handleDimensionChange "") = Some 100.
Proof.
  destruct (dimension_field_floor "1024") as (n1 & H1 & _ & K1 & _).
  destruct (dimension_field_floor "64") as (n2 & H2 & _ & _ & K2 & _).
  destruct (dimension_field_floor "") as (n3 & H3 & _ & _ & _ & K3 & _).
  rewrite H1, H2, H3.
  rewrite (K1 1024 eq_refl ltac:(lia)).
  rewrite (K2 64 eq_refl ltac:(lia)).
  rewrite (K3 eq_refl).
  repeat split.
Defined.

(** ** Hit zones: hints, symmetry, small boxes *)

(** X17. The cursor shown while hovering announces what a press at the
    same place starts.  With no session active, for the same pointer and
    target box: the hint is [grab] exactly when a press starts a drag, and
    it is the direction token followed by [-resize] exactly when a press
    starts a resize in that direction.  While a session is active the
    hover handler assigns nothing. *)
Theorem cursor_hint_matches_press :
  forall (e : Dom.Pointer) (targetRect currentTargetRect : Dom.Rect)
         (button : ChartButton) (st : State),
    let pressed :=
      handleMouseDown false e targetRect currentTargetRect button st in
    (isDragging st = false -> isResizing st = false ->
     match handleButtonMouseMove e targetRect st with
     | Some hint =>
         (hint = "grab"%string /\
          isDragging pressed = true /\ isResizing pressed = false) \/
         (exists d,
             hint = (directionToken d ++ "-resize")%string /\
             isResizing pressed = true /\ isDragging pressed = false /\
             resizeDirection pressed = Some d)
     | None => False
     end) /\
    (isDragging st = true \/ isResizing st = true ->
     handleButtonMouseMove e targetRect st = None /\
     handleButtonMouseLeave st = None).
Proof.
  intros e targetRect currentTargetRect button st. cbv zeta.
  unfold handleButtonMouseMove, handleButtonMouseLeave, handleMouseDown.
  split.
  - intros -> ->. cbn [orb].
    destruct (getResizeDirection (Dom.MouseEv e) targetRect) as [d|];
      cbn [isDragging isResizing resizeDirection].
    + right. exists d. auto.
    + left. auto.
  - intros [-> | ->]; [split; reflexivity|].
    rewrite !orb_true_r. split; reflexivity.
Qed.

Lemma cursor_hint_matches_press_witness :
  handleButtonMouseMove (Dom.mkPointer 53 52) (Dom.mkRect 50 50 120 40)
                        (idle [sampleButton 50 50 120 40])
  = Some "nw-resize"%string /\
  handleButtonMouseMove (Dom.mkPointer 110 70) (Dom.mkRect 50 50 120 40)
                        (dragging [sampleButton 50 50 120 40] (60, 20))
  = None.
Proof.
  split; [reflexivity|].
  apply (cursor_hint_matches_press (Dom.mkPointer 110 70)
           (Dom.mkRect 50 50 120 40) (Dom.mkRect 50 50 120 40)
           (sampleButton 50 50 120 40)).
  left. reflexivity.
Defined.

(** X18. The classification is mirror symmetric on boxes at least 16
    wide, respectively high: reflecting the position left to right swaps
    east and west in the answer, reflecting it top to bottom swaps north
    and south. *)
Theorem classify_mirror_symmetry :
  forall (px py boxWidth boxHeight : Z),
    (16 <= boxWidth ->
     classify (boxWidth - px) py boxWidth boxHeight
     = mirrorEastWest (classify px py boxWidth boxHeight)) /\
    (16 <= boxHeight ->
     classify px (boxHeight - py) boxWidth boxHeight
     = mirrorNorthSouth (classify px py boxWidth boxHeight)).
Proof.
  intros px py boxWidth boxHeight.
  split; intros Hsize; zone_cases; cbn [mirrorEastWest mirrorNorthSouth];
    try reflexivity; exfalso; lia.
Qed.

Lemma classify_mirror_symmetry_witness :
  classify (120 - 3) 20 120 40 = Some DirE /\
  classify 3 (40 - 2) 120 40 = Some DirSW.
Proof.
  destruct (classify_mirror_symmetry 3 20 120 40) as [Hew _].
  destruct (classify_mirror_symmetry 3 2 120 40) as [_ Hns].
  split; [now apply Hew | now apply Hns].
Defined.

(** X19. A press is classified as none, and so starts a drag, exactly
    when it is at least 8 away from all four sides.  A box less than 16
    wide or less than 16 high has no such place: every press on it that is
    not on the settings icon starts a resize, never a drag. *)
Theorem small_box_cannot_be_dragged :
  forall (e : Dom.Pointer) (targetRect currentTargetRect : Dom.Rect)
         (button : ChartButton) (st : State),
    let px := Dom.clientX e - Dom.left targetRect in
    let py := Dom.clientY e - Dom.top targetRect in
    (getResizeDirection (Dom.MouseEv e) targetRect = None <->
     8 <= px <= Dom.width targetRect - 8 /\
     8 <= py <= Dom.height targetRect - 8) /\
    (Dom.width targetRect < 16 \/ Dom.height targetRect < 16 ->
     let pressed :=
       handleMouseDown false e targetRect currentTargetRect button st in
     isResizing pressed = true /\ isDragging pressed = isDragging st /\
     resizeDirection pressed <> None).
Proof.
  intros e targetRect currentTargetRect button st. cbv zeta.
  assert (Hnone : getResizeDirection (Dom.MouseEv e) targetRect = None <->
                  8 <= Dom.clientX e - Dom.left targetRect
                  <= Dom.width targetRect - 8 /\
                  8 <= Dom.clientY e - Dom.top targetRect
                  <= Dom.height targetRect - 8).
  { unfold getResizeDirection. cbv zeta. zone_cases;
      split; intros Hside; try discriminate; try reflexivity; lia. }
  split; [exact Hnone|]. intros Hsmall. unfold handleMouseDown.
  destruct (getResizeDirection (Dom.MouseEv e) targetRect) as [d|] eqn:Hd.
  - cbn [isResizing isDragging resizeDirection]. repeat split. discriminate.
  - exfalso. destruct Hnone as [Hn _]. specialize (Hn eq_refl). lia.
Qed.

Lemma small_box_cannot_be_dragged_witness :
  let box := Dom.mkRect 200 200 10 40 in
  isResizing (handleMouseDown false (Dom.mkPointer 205 220) box box
                              (sampleButton 200 200 10 40)
                              (idle [sampleButton 200 200 10 40])) = true.
Proof.
  cbv zeta.
  destruct (small_box_cannot_be_dragged (Dom.mkPointer 205 220)
              (Dom.mkRect 200 200 10 40) (Dom.mkRect 200 200 10 40)
              (sampleButton 200 200 10 40)
              (idle [sampleButton 200 200 10 40])) as [_ Hsmall].
  apply Hsmall. left. simpl. lia.
Defined.

(** ** The screens of the viewer *)

Lemma viewerStep_inv allRanges ev st :
  ViewerInv allRanges st -> ViewerInv allRanges (viewerStep allRanges ev st).
Proof.
  intros Hinv. destruct ev as [button|]; simpl.
  - destruct (ChartViewer.showMatrixView st) eqn:Hshow; [exact Hinv|].
    unfold ChartViewer.handleButtonClick.
    assert (Hlookup :
              ViewerInv allRanges
                (fst match find (fun range =>
                                   String.eqb (range_id range)
                                              (linkedItem button)) allRanges with
                     | Some linkedRange =>
                         (ChartViewer.mkState (Some linkedRange) true, [])
                     | None =>
                         (ChartViewer.mkState None
                            (ChartViewer.showMatrixView st),
                          [ChartViewer.Alert ChartViewer.rangeNotFound])
                     end)).
    { destruct (find _ allRanges) as [r|] eqn:Hfind; simpl.
      - right. split; [reflexivity|]. exists r. split; [reflexivity|].
        now apply find_some in Hfind.
      - left. auto. }
    destruct (type button) as [[| |]|]; simpl; auto.
  - destruct (ChartViewer.showMatrixView st) eqn:Hshow; [|exact Hinv].
    left. split; reflexivity.
Qed.

(** X20. Starting from the button view, whatever buttons are clicked and
    however often the back button is used (each only while it is
    rendered), the viewer shows either the chart's buttons or the matrix of
    a range taken from the supplied ranges: the text for a missing range
    is never rendered, and the button view is shown exactly when no range
    is displayed. *)
Theorem viewer_shows_buttons_or_supplied_range :
  forall (allRanges : list Range) (evs : list ViewerEvent),
    let st := runViewer allRanges evs viewerStart in
    screen st <> MissingRangeText /\
    (forall r, screen st = MatrixScreen r -> In r allRanges) /\
    (screen st = ButtonsScreen <-> ChartViewer.displayedRange st = None).
Proof.
  intros allRanges evs. cbv zeta.
  assert (Hinv : ViewerInv allRanges (runViewer allRanges evs viewerStart)).
  { assert (Hstart : ViewerInv allRanges viewerStart) by (left; split; reflexivity).
    generalize dependent viewerStart.
    induction evs as [|ev evs IH]; intros st Hst; simpl; [exact Hst|].
    apply IH. now apply viewerStep_inv. }
  unfold screen.
  destruct Hinv as [[-> ->]|[-> (r & -> & Hin)]].
  - repeat split; try discriminate.
  - repeat split; try discriminate. now intros r' [= <-].
Qed.

Lemma viewer_shows_buttons_or_supplied_range_witness :
  let ranges := [mkRange "R0" "open"; mkRange "R2" "call"] in
  let evs := [Click (sampleButton 0 0 80 60);
              Click (mkButton "b7" "Call" "#000000" "R2" 0 0 80 60 (Some normal))] in
  screen (runViewer ranges evs viewerStart) = MatrixScreen (mkRange "R2" "call")
  /\ In (mkRange "R2" "call") ranges.
Proof.
  cbv zeta. split; [reflexivity|].
  destruct (viewer_shows_buttons_or_supplied_range
              [mkRange "R0" "open"; mkRange "R2" "call"]
              [Click (sampleButton 0 0 80 60);
               Click (mkButton "b7" "Call" "#000000" "R2" 0 0 80 60
                               (Some normal))]) as (_ & Hin & _).
  apply Hin. reflexivity.
Defined.

(** ** Opening a chart and going back *)

(** X21. Going back right after a chart is opened hands the chart itself
    to [onSaveChart], then calls [onBackToCharts], when the chart carries
    both canvas dimensions and neither is 0.  A chart opened without
    dimensions is saved with the defaults 800 and 500 written into it. *)
Theorem open_then_back_saves_chart :
  forall (c : StoredChart),
    (forall w h,
        chart_canvasWidth c = Some (Some w) -> w <> 0 ->
        chart_canvasHeight c = Some (Some h) -> h <> 0 ->
        handleBackButtonClick (openChart c) = [OnSaveChart c; OnBackToCharts]) /\
    (chart_canvasWidth c = None -> chart_canvasHeight c = None ->
     handleBackButtonClick (openChart c)
     = [OnSaveChart (mkChart (chart_id c) (chart_name c) (chart_buttons c)
                             (Some (Some 800)) (Some (Some 500)));
        OnBackToCharts]).
Proof.
  intros [cid cname cbuttons cw ch]. unfold handleBackButtonClick, openChart.
  cbn [chart chartName canvasWidth canvasHeight ui buttons chart_id chart_name
       chart_buttons chart_canvasWidth chart_canvasHeight].
  split.
  - intros w h -> Hw -> Hh. unfold orDefault.
    destruct w; [congruence| |]; destruct h; congruence || reflexivity.
  - intros -> ->. reflexivity.
Qed.

Lemma open_then_back_saves_chart_witness :
  let c := mkChart "c1" "Preflop" [sampleButton 10 10 100 100]
                   (Some (Some 640)) (Some (Some 480)) in
  handleBackButtonClick (openChart c) = [OnSaveChart c; OnBackToCharts].
Proof.
  cbv zeta.
  destruct (open_then_back_saves_chart
              (mkChart "c1" "Preflop" [sampleButton 10 10 100 100]
                       (Some (Some 640)) (Some (Some 480)))) as [Hsame _].
  apply (Hsame 640 480); try reflexivity; discriminate.
Defined.

(** ** Maximising the canvas *)

(** X22. Maximising sets the width to the parent's client width as it is,
    with no lower bound, and the height to the room under the canvas
    (window height minus the canvas top minus 24) rounded down, but never
    to less than 100.  Nothing is set when the canvas or its parent is
    missing. *)
Theorem maximize_height_floor :
  forall (canvasTop : Q) (parentClientWidth innerHeight : Z),
    let room := (inject_Z innerHeight - canvasTop - inject_Z 24)%Q in
    (exists newHeight,
        handleMaximizeCanvas (Some canvasTop) (Some parentClientWidth)
                             innerHeight
        = Some (parentClientWidth, newHeight) /\
        100 <= newHeight /\
        ((room <= inject_Z 100)%Q -> newHeight = 100) /\
        ((inject_Z 100 < room)%Q -> newHeight = Qfloor room)) /\
    handleMaximizeCanvas None (Some parentClientWidth) innerHeight = None /\
    handleMaximizeCanvas (Some canvasTop) None innerHeight = None.
Proof.
  intros canvasTop parentClientWidth innerHeight. cbv zeta.
  split; [|split; reflexivity].
  unfold handleMaximizeCanvas.
  set (room := (inject_Z innerHeight - canvasTop - inject_Z 24)%Q).
  destruct (Qle_bool room (inject_Z 100)) eqn:Hle.
  - apply Qle_bool_iff in Hle. exists 100. rewrite Qfloor_Z.
    repeat split; try lia.
    intros Hlt. exfalso. now apply (Qlt_not_le _ _ Hlt).
  - assert (Hlt : (inject_Z 100 < room)%Q).
    { apply Qnot_le_lt. intros Hc. apply Qle_bool_iff in Hc. congruence. }
    exists (Qfloor room). repeat split.
    + rewrite <- (Qfloor_Z 100). apply Qfloor_resp_le. now apply Qlt_le_weak.
    + intros Hc. exfalso. now apply (Qlt_not_le _ _ Hlt).
Qed.

Lemma maximize_height_floor_witness :
  handleMaximizeCanvas (Some (363 # 2)%Q) (Some 1180) 900 = Some (1180, 694).
Proof.
  destruct (maximize_height_floor (363 # 2)%Q 1180 900)
    as [(newHeight & -> & _ & _ & Hroom) _].
  rewrite Hroom; [reflexivity|].
  unfold Qlt; simpl; lia.
Defined.
